(** * tls-stats: the join, aggregation, report and cache logic of package [stats]

    A shallow embedding of [pkg/analysis.go] and of the types and report
    builder of the package ([TLSStats], [toJSONStruct], [sort], [cipherMaps],
    the name lookups, [download], [DownloadData]).

    Conventions.
    - Go's [int] (64 bits on the supported platforms) and [int64] are [Z];
      [int64] additions are written with their wrap-around ([add64]).
    - Go maps are [gmap]s.  A [range] over a map visits the entries in an
      order the language leaves open: the order is supplied by the
      [Runtime] record, and theorems quantify over it.
    - [float64] is the kernel's binary64 ([PrimFloat]).
    - A call that does not return normally ends in [Panics] (an index out of
      range) or [Diverges] (a loop that never exits); see [outcome].
    - The lookup tables of the package that are declared outside the files
      modelled here ([chromeVers] ... [ieVers], [CipherSuiteMap],
      [NamedCurves]) are the fields of [Tables]; a theorem that needs a
      fact about a table states it as a hypothesis. *)

From Stdlib Require Import ZArith Floats Uint63 Ascii.
From stdpp Require Import gmap strings list fin_maps sorting pretty.

Local Open Scope Z_scope.

(** ** Machine integers and floats *)

Definition min_int64 : Z := - 2 ^ 63.
Definition max_int64 : Z := 2 ^ 63 - 1.

(** Two's complement wrap-around of a 64-bit signed result. *)
Definition wrap64 (z : Z) : Z := (z + 2 ^ 63) mod 2 ^ 64 - 2 ^ 63.

(** [a + b] on [int64]. *)
Definition add64 (a b : Z) : Z := wrap64 (a + b).

(** [uint16(c)] for an [int] [c]: the low 16 bits. *)
Definition uint16 (c : Z) : Z := c mod 2 ^ 16.

(** [float64(v)] for an [int64] [v]: the nearest binary64, ties to even.
    The primitive conversion takes a 63-bit unsigned integer, so the sign is
    handled apart and [- 2 ^ 63] (a power of two, exact) is its own case. *)
Definition float64 (v : Z) : float :=
  if v =? min_int64 then (-0x1p+63)%float
  else if v <? 0 then PrimFloat.opp (PrimFloat.of_uint63 (Uint63.of_Z (- v)))
  else PrimFloat.of_uint63 (Uint63.of_Z v).

(** ** Outcomes of calls that may fail to return *)

Inductive outcome (A : Type) : Type :=
| Returns (a : A)
| Panics
| Diverges.
Arguments Returns {A} a.
Arguments Panics {A}.
Arguments Diverges {A}.

#[global] Instance outcome_ret : MRet outcome := @Returns.
#[global] Instance outcome_bind : MBind outcome := λ A B f o,
  match o with
  | Returns a => f a
  | Panics => Panics
  | Diverges => Diverges
  end.

#[global] Instance outcome_fmap : FMap outcome := λ A B f o,
  match o with
  | Returns a => Returns (f a)
  | Panics => Panics
  | Diverges => Diverges
  end.

(** A loop [for _, x := range xs { acc = body(acc, x) }] whose body may fail. *)
Fixpoint forEach {A S} (body : S → A → outcome S) (xs : list A) (acc : S) : outcome S :=
  match xs with
  | [] => Returns acc
  | x :: rest => acc' ← body acc x; forEach body rest acc'
  end.

(** ** Data model *)

(** [time.Time], as an instant on a linear scale. *)
Definition Time : Type := Z.
Definition Before (t u : Time) : bool := t <? u.
Definition After (t u : Time) : bool := u <? t.

Module Device.
Record t : Type := Build {
  Name : string;
  Platform : string;
  Version : string;
  LowestProtocol : Z;
  HighestProtocol : Z;
  SuiteIds : list Z;
  SuiteNames : list string;
  EllipticCurves : list Z
}.
End Device.
Abbreviation Device := Device.t.

Module Browser.
Record t : Type := Build {
  Date : Time;
  BrowserFamily : string;
  BrowserMajorVersion : string;
  OSFamily : string;
  OSMajorVersion : string;
  Count : Z
}.
End Browser.
Abbreviation Browser := Browser.t.

Module Entry.
Record t : Type := Build {
  ID : Z;
  Percent : float;
  Name : string
}.
End Entry.
Abbreviation Entry := Entry.t.

Module TLSStatistics.
Record t : Type := Build {
  GenerationDate : Time;
  StartDate : Time;
  EndDate : Time;
  Protocols : list Entry;
  Ciphers : list Entry;
  Curves : list Entry
}.
End TLSStatistics.
Abbreviation TLSStatistics := TLSStatistics.t.

Record intByInt64 : Type := KV { k : Z; v : Z }.
Abbreviation kv := (list intByInt64).

(** [kv.Less(i, j)], on the two elements it compares. *)
Definition Less (x y : intByInt64) : bool := v y <? v x.

Module TLSStats.
Record t : Type := Build {
  Protocols : gmap Z Z;
  Ciphers : gmap Z Z;
  Curves : gmap Z Z;
  Total : Z;
  devices : list Device;
  protocols : kv;
  ciphers : kv;
  curves : kv
}.
End TLSStats.
Abbreviation TLSStats := TLSStats.t.

(** The package's lookup tables that are declared outside the modelled
    files: the per-family version tables of [collapseVersion] and the name
    tables of [getCipherName] and [getCurveName] (keyed by [uint16]). *)
Record Tables : Type := {
  chromeVers : gmap string string;
  firefoxVers : gmap string string;
  androidVers : gmap string string;
  safariVers : gmap string string;
  operaVers : gmap string string;
  edgeVers : gmap string string;
  ieVers : gmap string string;
  CipherSuiteMap : gmap Z string;
  NamedCurves : gmap Z string
}.

(** What the loader takes from package [time]. *)
Record Calendar : Type := {
  (* time.Parse(dateFormat, s), None for an error *)
  parseDate : string → option Time;
  (* time.Date(year-1, 0, 0, 0, 0, 0, 0, time.UTC) for the year of an instant *)
  aYearAgoAndABit : Time → Time;
  (* t.AddDate(-1, 0, 0) *)
  oneYearBefore : Time → Time
}.

(** What the Go runtime and standard library decide for the program: the
    order in which [range] visits a map, the permutation [sort.Sort]
    arrives at, and the calendar arithmetic of package [time]. *)
Record Runtime : Type := {
  rangeBrowsers : gmap string Z → list (string * Z);
  rangeCounts : gmap Z Z → list (Z * Z);
  sortSort : kv → kv;
  (* time.Date(y, m, d, 0, 0, 0, 0, time.UTC) for the date y, m, d of an instant *)
  midnightUTC : Time → Time;
  (* t.AddDate(0, -6, 0) *)
  sixMonthsBefore : Time → Time;
  (* t.Format(dateFormat) *)
  formatDate : Time → string;
  (* what [loadBrowserOSStats] takes from package time *)
  calendar : Calendar
}.

(** The language's and the library's contracts for the above: [range]
    visits every entry of the map once, and [sort.Sort] permutes its
    argument so that no later element is [Less] than an earlier one. *)
Record RuntimeOK (R : Runtime) : Prop := {
  rangeBrowsers_perm : ∀ m, rangeBrowsers R m ≡ₚ map_to_list m;
  rangeCounts_perm : ∀ m, rangeCounts R m ≡ₚ map_to_list m;
  sortSort_perm : ∀ data, sortSort R data ≡ₚ data;
  sortSort_sorted : ∀ data, StronglySorted (λ x y, Less y x = false) (sortSort R data)
}.

(** What [sort.Sort] does on a short slice: the library's [insertionSort],
    in which element [i] moves left while it is [Less] than its left
    neighbour.  (Go 1.19 and later sort slices of at most 12 elements this
    way; earlier versions first make one pass that compares elements six
    places apart, which does nothing on fewer than 7 elements.) *)
Fixpoint insertLeft (x : intByInt64) (sorted : kv) : kv :=
  (* [sorted] is the prefix read right to left *)
  match sorted with
  | [] => [x]
  | y :: rest => if Less x y then y :: insertLeft x rest else x :: y :: rest
  end.

Definition insertionSort (data : kv) : kv :=
  reverse (foldl (λ sorted x, insertLeft x sorted) [] data).

(** ** Key normalizer *)

(** [strings.Split(s, ":")]. *)
Fixpoint splitColon (s : string) : list string :=
  match s with
  | EmptyString => [EmptyString]
  | String c rest =>
      if Ascii.eqb c ":"%char then EmptyString :: splitColon rest
      else match splitColon rest with
           | piece :: pieces => String c piece :: pieces
           | [] => [String c EmptyString]
           end
  end.

(** [fmt.Sprintf("%s:%s", a, b)]. *)
Definition sprintfColon (a b : string) : string := a +:+ ":" +:+ b.

(** A [switch] on a string with constant cases. *)
Fixpoint switch {A} (x : string) (cases : list (string * A)) (default : A) : A :=
  match cases with
  | [] => default
  | (c, a) :: rest => if String.eqb x c then a else switch x rest default
  end.

Definition dedupFamily (browser : string) : string :=
  switch browser
    [ ("Chrome Mobile", "Chrome");
      ("Chrome Mobile WebView", "Chrome");
      ("Chrome Mobile iOS", "Chrome");
      ("Chromium", "Chrome");
      ("Firefox Mobile", "Firefox");
      ("Thunderbird", "Firefox");
      ("Firefox iOS", "Firefox");
      ("Opera Mini", "Opera");
      ("Opera Mobile", "Opera");
      ("Mobile Safari", "Safari");
      ("Mobile Safari UIWebView", "Safari");
      ("Mobile Safari UI/WKWebView", "Safari");
      ("Samsung Internet", "Android");
      ("IE Mobile", "IE");
      ("Edge Mobile", "Edge") ]
    browser.

(** One [case] of [collapseVersion]: the family's table decides. *)
Definition collapseWith (vers : gmap string string) (fam ver browser : string) : string :=
  match vers !! ver with
  | Some nv => sprintfColon fam nv
  | None => browser
  end.

Definition collapseVersion (T : Tables) (browser : string) : string :=
  match splitColon browser with
  | [fam; ver] =>
      switch fam
        [ ("Chrome", collapseWith (chromeVers T) fam ver browser);
          ("Firefox", collapseWith (firefoxVers T) fam ver browser);
          ("Android", collapseWith (androidVers T) fam ver browser);
          ("Safari", collapseWith (safariVers T) fam ver browser);
          ("Opera", collapseWith (operaVers T) fam ver browser);
          ("Edge", collapseWith (edgeVers T) fam ver browser);
          ("IE", collapseWith (ieVers T) fam ver browser) ]
        browser
  | _ => browser
  end.

Definition browserKey (T : Tables) (browser : Browser) : string :=
  collapseVersion T
    (sprintfColon (dedupFamily (Browser.BrowserFamily browser))
                  (Browser.BrowserMajorVersion browser)).

Definition deviceKey (device : Device) : string :=
  sprintfColon (Device.Name device) (Device.Version device).

(** ** Join and aggregation *)

(** The statement repeated for each of the three count maps:
    [if count, present := m[id]; present { m[id] = count + c } else { m[id] = c }]. *)
Definition addCount (counts : gmap Z Z) (id c : Z) : gmap Z Z :=
  match counts !! id with
  | Some count => <[id := add64 count c]> counts
  | None => <[id := c]> counts
  end.

(** [for p := lowestProtocol; p <= highest; p++ { protocols[p] += c }].
    When [highest] is the largest [int], [p <= highest] never fails and
    [p++] wraps: the loop does not exit. *)
Definition countProtocols (lowestProtocol highest c : Z) (protocols : gmap Z Z)
  : outcome (gmap Z Z) :=
  if bool_decide (lowestProtocol ≤ highest ∧ highest = max_int64) then Diverges
  else Returns (foldl (λ m p, addCount m p c) protocols
                      (seqZ lowestProtocol (highest - lowestProtocol + 1))).

(** The accumulators of [getTLSStats]: the three maps and [total]. *)
Record Tally : Type := {
  t_protocols : gmap Z Z;
  t_ciphers : gmap Z Z;
  t_curves : gmap Z Z;
  t_total : Z
}.

(** The body of the loop [for b, c := range browsers] of [getTLSStats]. *)
Definition tallyBrowser (deviceKeys : gmap string Device) (acc : Tally) (bc : string * Z)
  : outcome Tally :=
  let '(b, c) := bc in
  let total := add64 (t_total acc) c in
  match deviceKeys !! b with
  | Some dev =>
      let lowestProtocol :=
        if 768 <? Device.LowestProtocol dev then Device.LowestProtocol dev else 768 in
      protocols ← countProtocols lowestProtocol (Device.HighestProtocol dev) c (t_protocols acc);
      let ciphers := foldl (λ m cid, addCount m cid c) (t_ciphers acc) (Device.SuiteIds dev) in
      let curves := foldl (λ m cid, addCount m cid c) (t_curves acc) (Device.EllipticCurves dev) in
      Returns {| t_protocols := protocols; t_ciphers := ciphers; t_curves := curves;
                 t_total := total |}
  | None =>
      (* prints "Could not find device with browser profile" *)
      Returns {| t_protocols := t_protocols acc; t_ciphers := t_ciphers acc;
                 t_curves := t_curves acc; t_total := total |}
  end.

(** [deviceKeys[deviceKey(d)] = d] for each device: the last one wins. *)
Definition deviceIndex (devices : list Device) : gmap string Device :=
  foldl (λ deviceKeys d, <[deviceKey d := d]> deviceKeys) ∅ devices.

Definition getTLSStats (R : Runtime) (browsers : gmap string Z) (devices : list Device)
  : outcome TLSStats :=
  let deviceKeys := deviceIndex devices in
  acc ← forEach (tallyBrowser deviceKeys) (rangeBrowsers R browsers)
        {| t_protocols := ∅; t_ciphers := ∅; t_curves := ∅; t_total := 0 |};
  Returns {| TLSStats.Protocols := t_protocols acc;
             TLSStats.Ciphers := t_ciphers acc;
             TLSStats.Curves := t_curves acc;
             TLSStats.Total := t_total acc;
             TLSStats.devices := devices;
             TLSStats.protocols := [];
             TLSStats.ciphers := [];
             TLSStats.curves := [] |}.

(** The locals of [analyseStats] after its loop over [browsers].  The
    counters are Go [int]s counting elements of a slice, which holds fewer
    than [2 ^ 63] of them, so they are written without wrap-around. *)
Record Join : Type := {
  found : Z;
  notfound : Z;
  m : gmap string Z;
  browserMap : gmap string Z
}.

(** The body of the loop [for _, b := range browsers] of [analyseStats]. *)
Definition joinBrowser (T : Tables) (deviceKeys : gmap string bool) (j : Join) (b : Browser)
  : Join :=
  let key := browserKey T b in
  match deviceKeys !! key with
  | Some _ =>
      {| found := found j + 1; notfound := notfound j; m := m j;
         browserMap :=
           match browserMap j !! key with
           | Some count => <[key := add64 count (Browser.Count b)]> (browserMap j)
           | None => <[key := Browser.Count b]> (browserMap j)
           end |}
  | None =>
      {| found := found j; notfound := notfound j + 1;
         m := match m j !! key with
              | Some count => <[key := count + 1]> (m j)
              | None => <[key := 1]> (m j)
              end;
         browserMap := browserMap j |}
  end.

(** [deviceKeys[deviceKey(d)] = true] for each device. *)
Definition deviceKeySet (devices : list Device) : gmap string bool :=
  foldl (λ deviceKeys d, <[deviceKey d := true]> deviceKeys) ∅ devices.

(** [analyseStats] up to the call of [getTLSStats]. *)
Definition joinBrowsers (T : Tables) (browsers : list Browser) (devices : list Device) : Join :=
  let deviceKeys := deviceKeySet devices in
  foldl (joinBrowser T deviceKeys)
        {| found := 0; notfound := 0; m := ∅; browserMap := ∅ |} browsers.

Definition getDateRange (browsers : list Browser) : Time * Time :=
  match browsers with
  | [] => (0, 0)   (* the zero [time.Time] *)
  | first :: _ =>
      foldl (λ '(start, end_) br,
               let date := Browser.Date br in
               let start := if After start date then date else start in
               let end_ := if Before end_ date then date else end_ in
               (start, end_))
            (Browser.Date first, Browser.Date first) browsers
  end.

(** [analyseStats], on the two datasets its loaders return; the loaders
    are run by [loadAndAnalyse] below. *)
Definition analyseStats (R : Runtime) (T : Tables)
    (browsers : list Browser) (devices : list Device) : outcome (TLSStats * Time * Time) :=
  let j := joinBrowsers T browsers devices in
  stats ← getTLSStats R (browserMap j) devices;
  let '(start, end_) := getDateRange browsers in
  Returns (stats, start, end_).

(** ** Report builder *)

(** One block of [sort]: the entries of a count map in [range] order,
    appended to [data], then [sort.Sort(data)]. *)
Definition sortedCounts (R : Runtime) (counts : gmap Z Z) : kv :=
  sortSort R ((λ e, KV e.1 e.2) <$> rangeCounts R counts).

(** The method [sort] of [TLSStats].  The source runs the block for [Ciphers] twice; the
    second result overwrites the first. *)
Definition TLSStats_sort (R : Runtime) (stats : TLSStats) : TLSStats :=
  {| TLSStats.Protocols := TLSStats.Protocols stats;
     TLSStats.Ciphers := TLSStats.Ciphers stats;
     TLSStats.Curves := TLSStats.Curves stats;
     TLSStats.Total := TLSStats.Total stats;
     TLSStats.devices := TLSStats.devices stats;
     TLSStats.protocols := sortedCounts R (TLSStats.Protocols stats);
     TLSStats.ciphers := sortedCounts R (TLSStats.Ciphers stats);
     TLSStats.curves := sortedCounts R (TLSStats.Curves stats) |}.

(** The inner loop of [cipherMaps] for one device; [dev.SuiteNames[ind]]
    panics when [ind] is out of range. *)
Definition cipherMapsDevice (out : gmap Z string) (dev : Device) : outcome (gmap Z string) :=
  forEach (λ out '(ind, id),
             match out !! id with
             | Some _ => Returns out
             | None =>
                 match Device.SuiteNames dev !! ind with
                 | Some name => Returns (<[id := name]> out)
                 | None => Panics
                 end
             end)
          (imap (λ (ind : nat) id, (ind, id)) (Device.SuiteIds dev)) out.

Definition cipherMaps (devices : list Device) : outcome (gmap Z string) :=
  forEach cipherMapsDevice devices ∅.

(** [tls.VersionSSL30] ... [tls.VersionTLS13] are 0x0300 ... 0x0304. *)
Definition getProtocolName (p : Z) : string :=
  if p =? 768 then "SSL v3.0"
  else if p =? 769 then "TLS v1.0"
  else if p =? 770 then "TLS v1.1"
  else if p =? 771 then "TLS v1.2"
  else if p =? 772 then "TLS v1.3"
  else "Unknown Protocol".

Definition getCipherName (T : Tables) (c : Z) (nonStandard : gmap Z string) : string :=
  match CipherSuiteMap T !! uint16 c with
  | Some cipher => cipher
  | None =>
      match nonStandard !! c with
      | Some cipher => cipher
      | None => "Nonstandard Cipher"
      end
  end.

Definition getCurveName (T : Tables) (c : Z) : string :=
  match NamedCurves T !! uint16 c with
  | Some curve => curve
  | None => "Nonstandard Curve"
  end.

(** [float64(v) / float64(stats.Total)]. *)
Definition percentOf (count total : Z) : float :=
  PrimFloat.div (float64 count) (float64 total).

(** [toJSONStruct]; [now] is what [time.Now()] returns. *)
Definition toJSONStruct (R : Runtime) (T : Tables) (now : Time)
    (stats : TLSStats) (start end_ : Time) : outcome TLSStatistics :=
  let stats := TLSStats_sort R stats in
  let total := TLSStats.Total stats in
  let protocols :=
    (λ pp, Entry.Build (k pp) (percentOf (v pp) total) (getProtocolName (k pp)))
      <$> TLSStats.protocols stats in
  ciphersWithNonStandardNames ← cipherMaps (TLSStats.devices stats);
  let ciphers :=
    (λ cc, Entry.Build (k cc) (percentOf (v cc) total)
                       (getCipherName T (k cc) ciphersWithNonStandardNames))
      <$> TLSStats.ciphers stats in
  let curves :=
    (λ cc, Entry.Build (k cc) (percentOf (v cc) total) (getCurveName T (k cc)))
      <$> TLSStats.curves stats in
  Returns {| TLSStatistics.GenerationDate := midnightUTC R now;
             TLSStatistics.StartDate := start;
             TLSStatistics.EndDate := end_;
             TLSStatistics.Protocols := protocols;
             TLSStatistics.Ciphers := ciphers;
             TLSStatistics.Curves := curves |}.

(** The sum of the [percent] values of a sequence, in [float64], and
    whether it is 1.0 within 1e-9 (the nearest binary64 to it). *)
Definition sumPercent (entries : list Entry) : float :=
  foldl (λ acc e, PrimFloat.add acc (Entry.Percent e)) 0%float entries.

Definition sumsToOne (entries : list Entry) : bool :=
  PrimFloat.leb (PrimFloat.abs (PrimFloat.sub (sumPercent entries) 1%float))
                0x1.12e0be826d695p-30%float.

(** ** The loader of the usage file *)

(** [strings.Split(s, sep)] for a separator of one byte. *)
Fixpoint splitOn (sep : ascii) (s : string) : list string :=
  match s with
  | EmptyString => [EmptyString]
  | String c rest =>
      if Ascii.eqb c sep then EmptyString :: splitOn sep rest
      else match splitOn sep rest with
           | piece :: pieces => String c piece :: pieces
           | [] => [String c EmptyString]
           end
  end.

(** The value of a decimal digit. *)
Definition digitOf (c : ascii) : option Z :=
  let n := Z.of_N (N_of_ascii c) in
  if (48 <=? n) && (n <=? 57) then Some (n - 48) else None.

(** The digits of [s] read after the value [n]; [None] on any other byte. *)
Fixpoint parseDigits (s : string) (n : Z) : option Z :=
  match s with
  | EmptyString => Some n
  | String c rest =>
      match digitOf c with
      | Some d => parseDigits rest (10 * n + d)
      | None => None
      end
  end.

(** [strconv.ParseInt(s, 10, 64)], [None] for an error: an optional sign,
    then one or more decimal digits, of a value an [int64] holds. *)
Definition ParseInt (s : string) : option Z :=
  match s with
  | EmptyString => None
  | String c rest =>
      let neg := Ascii.eqb c "-"%char in
      let digits := if Ascii.eqb c "+"%char || neg then rest else s in
      match digits with
      | EmptyString => None
      | _ =>
          match parseDigits digits 0 with
          | Some un =>
              if neg then (if un <=? 2 ^ 63 then Some (- un) else None)
              else (if un <? 2 ^ 63 then Some un else None)
          | None => None
          end
      end
  end.

(** The body of the loop over the lines of the file.  The test is
    [len(data) > 4] and the first field read is [data[5]]. *)
Definition loadLine (C : Calendar) (yearAgo : Time) (browsers : list Browser) (line : string)
  : outcome (list Browser) :=
  match splitOn "009"%char line with
  | d0 :: d1 :: d2 :: d3 :: d4 :: rest =>
      match rest with
      | [] => Panics
      | d5 :: _ =>
          match ParseInt d5 with
          | Some percent =>
              match parseDate C d0 with
              | Some date =>
                  if After date yearAgo
                  then Returns (browsers ++
                         [ {| Browser.Date := date; Browser.BrowserFamily := d3;
                              Browser.BrowserMajorVersion := d4; Browser.OSFamily := d1;
                              Browser.OSMajorVersion := d2; Browser.Count := percent |} ])
                  else Returns browsers
              | None => Returns browsers
              end
          | None => Returns browsers
          end
      end
  | _ => Returns browsers
  end.

(** [loadBrowserOSStats], on the lines the scanner yields ([None] when the
    file does not open). *)
Definition loadBrowserOSStats (C : Calendar) (now0 : Time) (file : option (list string))
  : outcome (list Browser) :=
  let yearAgo := aYearAgoAndABit C now0 in
  browsers ← match file with
             | Some lines => forEach (loadLine C yearAgo) lines []
             | None => Returns []
             end;
  if 0 <? Z.of_nat (length browsers) - 1 then
    match last browsers with
    | Some lastRecord =>
        let yearAgo := oneYearBefore C (Browser.Date lastRecord) in
        Returns (filter (λ b, After (Browser.Date b) yearAgo = true) browsers)
    | None => Returns browsers
    end
  else Returns browsers.

(** ** Cache manager *)

(** What the readers of the package make of a file of [statsHome]:
    [ioutil.ReadFile] fails, or [json.Unmarshal] fails and leaves [partial]
    in its target, or the file holds a report. *)
Inductive Artifact : Type :=
| Unreadable
| Unparsable (partial : TLSStatistics)
| Report (statistics : TLSStatistics).

Inductive error : Type :=
| ErrAlreadyExists   (* "Downloading file ..., which already exists" *)
| ErrUnsupportedValue. (* json: a NaN or an infinite [float64] *)

(** The files the package works on and what it reads from its
    environment.  A data file is present ([Some]) or absent: the usage file
    with the lines a scanner yields, the file of profiles with the devices
    [json.Unmarshal] leaves in its target.  The [net] fields are what
    [http.Get] would deliver, [None] when the request fails.  Failures of
    the operating system other than those named by [Artifact] are outside
    the model, and [now] stands for every [time.Now()] of one invocation. *)
Record World : Type := {
  now : Time;
  jsonStatsOut : option Artifact;
  backups : gmap string Artifact;
  browserStatsData : option (list string);
  deviceCiphers : option (list Device);
  netBrowserStats : option (list string);
  netDeviceDetails : option (list Device)
}.

(** [download] on one file: the new state of the file and the error
    returned.  In the first branch every [err] is a local of an inner
    scope, so the function returns [nil]. *)
Definition download {A} (file url : option A) (force : bool) : option A * option error :=
  if force || negb (bool_decide (is_Some file)) then
    (match url with Some body => Some body | None => file end, None)
  else (file, Some ErrAlreadyExists).

Definition DownloadData (force : bool) (w : World) : World * option error :=
  let '(browsers, err) := download (browserStatsData w) (netBrowserStats w) force in
  let w1 := {| now := now w; jsonStatsOut := jsonStatsOut w; backups := backups w;
               browserStatsData := browsers; deviceCiphers := deviceCiphers w;
               netBrowserStats := netBrowserStats w;
               netDeviceDetails := netDeviceDetails w |} in
  match err with
  | Some e => (w1, Some e)
  | None =>
      let '(devices, err) := download (deviceCiphers w1) (netDeviceDetails w1) force in
      ({| now := now w; jsonStatsOut := jsonStatsOut w; backups := backups w;
          browserStatsData := browsers; deviceCiphers := devices;
          netBrowserStats := netBrowserStats w;
          netDeviceDetails := netDeviceDetails w |}, err)
  end.

(** [json.MarshalIndent] refuses a [float64] that is not finite. *)
Definition marshalable (statistics : TLSStatistics) : bool :=
  forallb (λ e, negb (PrimFloat.is_nan (Entry.Percent e)
                      || PrimFloat.is_infinity (Entry.Percent e)))
          (TLSStatistics.Protocols statistics ++ TLSStatistics.Ciphers statistics
           ++ TLSStatistics.Curves statistics).

(** The name [renameCurrentStats] gives the archived report, in [statsHome]. *)
Definition backupName (R : Runtime) (generationDate : Time) : string :=
  "tls-stats-" +:+ formatDate R generationDate +:+ ".json".

(** [w] with the current report file and the backups replaced. *)
Definition setCurrent (w : World) (current : option Artifact) (archive : gmap string Artifact)
  : World :=
  {| now := now w; jsonStatsOut := current; backups := archive;
     browserStatsData := browserStatsData w; deviceCiphers := deviceCiphers w;
     netBrowserStats := netBrowserStats w; netDeviceDetails := netDeviceDetails w |}.

(** [renameCurrentStats]: the file is moved only when it reads and parses. *)
Definition renameCurrentStats (R : Runtime) (w : World) : World :=
  match jsonStatsOut w with
  | Some (Report stats) =>
      setCurrent w None
        (<[backupName R (TLSStatistics.GenerationDate stats) := Report stats]> (backups w))
  | _ => w
  end.

(** [loadDeviceDetails]: the devices decoded from the file, none when it
    does not open. *)
Definition loadDeviceDetails (file : option (list Device)) : list Device :=
  default [] file.

(** [analyseStats] from its first statement: the two loaders on the data
    files, then the join and the tally of [analyseStats] on what they
    return. *)
Definition loadAndAnalyse (R : Runtime) (T : Tables) (w : World)
  : outcome (TLSStats * Time * Time) :=
  browsers ← loadBrowserOSStats (calendar R) (now w) (browserStatsData w);
  analyseStats R T browsers (loadDeviceDetails (deviceCiphers w)).

(** [analyseAndWriteToFile].  The file it writes is read back as the
    report it was written from. *)
Definition analyseAndWriteToFile (R : Runtime) (T : Tables) (w : World)
  : outcome (World * (TLSStatistics * option error)) :=
  '(stats, start, end_) ← loadAndAnalyse R T w;
  statistics ← toJSONStruct R T (now w) stats start end_;
  if marshalable statistics
  then Returns (setCurrent w (Some (Report statistics)) (backups w), (statistics, None))
  else Returns (w, (statistics, Some ErrUnsupportedValue)).

(** The zero value of [TLSStatistics]. *)
Definition noStatistics : TLSStatistics :=
  {| TLSStatistics.GenerationDate := 0; TLSStatistics.StartDate := 0;
     TLSStatistics.EndDate := 0; TLSStatistics.Protocols := [];
     TLSStatistics.Ciphers := []; TLSStatistics.Curves := [] |}.

(** [GetStats].  In the branch of an existing file the results of
    [ioutil.ReadFile] and [json.Unmarshal] are bound to an [e] of the inner
    scope: when either fails, control reaches the bare [return] with the
    named result [e] still nil. *)
Definition GetStats (R : Runtime) (T : Tables) (forceDownload : bool) (w : World)
  : outcome (World * (TLSStatistics * option error)) :=
  if forceDownload then
    let '(w1, e) := DownloadData true w in
    match e with
    | None => analyseAndWriteToFile R T (renameCurrentStats R w1)
    | Some err => Returns (w1, (noStatistics, Some err))
    end
  else
    match jsonStatsOut w with
    | None =>
        (* no stats. download and compute *)
        analyseAndWriteToFile R T (DownloadData false w).1
    | Some Unreadable => Returns (w, (noStatistics, None))
    | Some (Unparsable partial) => Returns (w, (partial, None))
    | Some (Report statistics) =>
        if Before (TLSStatistics.GenerationDate statistics) (sixMonthsBefore R (now w))
        then
          (* but it's stale: move the old stats *)
          analyseAndWriteToFile R T (DownloadData false (renameCurrentStats R w)).1
        else Returns (w, (statistics, None))
    end.

(** ** Sample environments and inputs *)

(** Tables with a few collapsed versions. *)
Definition sampleTables : Tables :=
  {| chromeVers := {[ "79" := "80"; "81" := "80" ]};
     firefoxVers := {[ "72" := "73" ]};
     androidVers := ∅; safariVers := ∅; operaVers := ∅; edgeVers := ∅; ieVers := ∅;
     CipherSuiteMap := {[ 4865 := "TLS_AES_128_GCM_SHA256" ]};
     NamedCurves := {[ 29 := "x25519" ]} |}.

(** A calendar for the examples: dates are written as day numbers. *)
Definition sampleCalendar : Calendar :=
  {| parseDate := λ s, (λ day, day * 86400) <$> ParseInt s;
     aYearAgoAndABit := λ t, t - 400 * 86400;
     oneYearBefore := λ t, t - 365 * 86400 |}.

(** A line of the usage file: the fields joined by tabs. *)
Definition tabSeparated (fields : list string) : string :=
  String.concat (String "009"%char EmptyString) fields.

(** A runtime whose [range] visits a count map by ascending key, and one
    that visits it by descending key; both sort by insertion, take a day
    of 86400 units and six months of 183 days, and read dates with the
    calendar above. *)
Definition keyAscending (e1 e2 : Z * Z) : Prop := e1.1 ≤ e2.1.
Definition keyDescending (e1 e2 : Z * Z) : Prop := e2.1 ≤ e1.1.
#[global] Instance keyAscending_dec : RelDecision keyAscending :=
  λ e1 e2, Z_le_dec e1.1 e2.1.
#[global] Instance keyDescending_dec : RelDecision keyDescending :=
  λ e1 e2, Z_le_dec e2.1 e1.1.

Definition sampleRuntime : Runtime :=
  {| rangeBrowsers := map_to_list;
     rangeCounts := λ m, merge_sort keyAscending (map_to_list m);
     sortSort := insertionSort;
     midnightUTC := λ t, t - t mod 86400;
     sixMonthsBefore := λ t, t - 183 * 86400;
     formatDate := λ t, pretty (t / 86400);
     calendar := sampleCalendar |}.

Definition descendingRuntime : Runtime :=
  {| rangeBrowsers := map_to_list;
     rangeCounts := λ m, merge_sort keyDescending (map_to_list m);
     sortSort := insertionSort;
     midnightUTC := midnightUTC sampleRuntime;
     sixMonthsBefore := sixMonthsBefore sampleRuntime;
     formatDate := formatDate sampleRuntime;
     calendar := sampleCalendar |}.

(** The sample runtime with the usage map visited in the opposite order. *)
Definition reversedRuntime : Runtime :=
  {| rangeBrowsers := λ usage, reverse (map_to_list usage);
     rangeCounts := rangeCounts sampleRuntime;
     sortSort := insertionSort;
     midnightUTC := midnightUTC sampleRuntime;
     sixMonthsBefore := sixMonthsBefore sampleRuntime;
     formatDate := formatDate sampleRuntime;
     calendar := sampleCalendar |}.

(** Scenario A of the specification. *)
Definition chrome90 : Browser :=
  {| Browser.Date := 1600000000; Browser.BrowserFamily := "Chrome";
     Browser.BrowserMajorVersion := "90"; Browser.OSFamily := "Windows";
     Browser.OSMajorVersion := "10"; Browser.Count := 100 |}.

Definition chrome90Profile : Device :=
  {| Device.Name := "Chrome"; Device.Platform := "Win 10"; Device.Version := "90";
     Device.LowestProtocol := 769; Device.HighestProtocol := 772;
     Device.SuiteIds := [4865]; Device.SuiteNames := ["TLS_AES_128_GCM_SHA256"];
     Device.EllipticCurves := [29] |}.

(** The tally of Scenario A. *)
Definition scenarioA : TLSStats :=
  {| TLSStats.Protocols := {[ 769 := 100; 770 := 100; 771 := 100; 772 := 100 ]};
     TLSStats.Ciphers := {[ 4865 := 100 ]};
     TLSStats.Curves := {[ 29 := 100 ]};
     TLSStats.Total := 100;
     TLSStats.devices := [chrome90Profile];
     TLSStats.protocols := []; TLSStats.ciphers := []; TLSStats.curves := [] |}.

(** A usage record of a browser no profile describes. *)
Definition lynx2 : Browser :=
  {| Browser.Date := 1600000000; Browser.BrowserFamily := "Lynx";
     Browser.BrowserMajorVersion := "2"; Browser.OSFamily := "Linux";
     Browser.OSMajorVersion := "5"; Browser.Count := 7 |}.

(** A profile whose protocol range is empty. *)
Definition emptyRangeProfile : Device :=
  {| Device.Name := "Chrome"; Device.Platform := "Win 10"; Device.Version := "90";
     Device.LowestProtocol := 771; Device.HighestProtocol := 770;
     Device.SuiteIds := [4865; 4866]; Device.SuiteNames := ["a"; "b"];
     Device.EllipticCurves := [29] |}.

(** A profile with a cipher id and no name beside it. *)
Definition namelessProfile : Device :=
  {| Device.Name := "Chrome"; Device.Platform := "Win 10"; Device.Version := "90";
     Device.LowestProtocol := 769; Device.HighestProtocol := 772;
     Device.SuiteIds := [4865]; Device.SuiteNames := [];
     Device.EllipticCurves := [29] |}.

Definition sampleReport (generationDate : Time) : TLSStatistics :=
  {| TLSStatistics.GenerationDate := generationDate;
     TLSStatistics.StartDate := 0; TLSStatistics.EndDate := 0;
     TLSStatistics.Protocols := []; TLSStatistics.Ciphers := [];
     TLSStatistics.Curves := [] |}.

(** The line of the usage file for 100 visits of Chrome 90 on day 19600. *)
Definition chrome90Line : string :=
  tabSeparated ["19600"; "Windows"; "10"; "Chrome"; "90"; "100"].

Definition sampleWorld (current : option Artifact) : World :=
  {| now := 1700000000; jsonStatsOut := current; backups := ∅;
     browserStatsData := Some [chrome90Line]; deviceCiphers := Some [chrome90Profile];
     netBrowserStats := None; netDeviceDetails := None |}.

(** A cached report of recent date beside a device file whose one profile
    has a cipher id and no name. *)
Definition namelessWorld : World :=
  {| now := 1700000000; jsonStatsOut := Some (Report (sampleReport 1699000000));
     backups := ∅;
     browserStatsData := Some [chrome90Line]; deviceCiphers := Some [namelessProfile];
     netBrowserStats := None; netDeviceDetails := None |}.

(** The report of Scenario A generated at 1700000000 from [chrome90Line]. *)
Definition scenarioAReport : TLSStatistics :=
  {| TLSStatistics.GenerationDate := 1699920000;
     TLSStatistics.StartDate := 1693440000; TLSStatistics.EndDate := 1693440000;
     TLSStatistics.Protocols :=
       [ Entry.Build 769 1 "TLS v1.0"; Entry.Build 770 1 "TLS v1.1";
         Entry.Build 771 1 "TLS v1.2"; Entry.Build 772 1 "TLS v1.3" ];
     TLSStatistics.Ciphers := [ Entry.Build 4865 1 "TLS_AES_128_GCM_SHA256" ];
     TLSStatistics.Curves := [ Entry.Build 29 1 "x25519" ] |}.


(** ** Properties claimed of the report *)

(** A sequence sorted by descending count. *)
Definition descendingByCount (data : kv) : Prop :=
  StronglySorted (λ x y, v y ≤ v x) data.

(** A sequence sorted by descending count in which entries of equal count
    stand in ascending order of identifier. *)
Definition tiesAscending (data : kv) : Prop :=
  StronglySorted (λ x y, v y < v x ∨ (v y = v x ∧ k x < k y)) data.

(** The parallel-array invariant of a profile. *)
Definition namesAligned (dev : Device) : Prop :=
  length (Device.SuiteNames dev) = length (Device.SuiteIds dev).

(** The entries of a count map as [sort] collects them. *)
Definition entriesOf (counts : gmap Z Z) : kv :=
  (λ e, KV e.1 e.2) <$> map_to_list counts.

(** The report [toJSONStruct] builds once [cipherMaps] has returned. *)
Definition reportOf (R : Runtime) (T : Tables) (now : Time) (stats : TLSStats)
    (start end_ : Time) (names : gmap Z string) : TLSStatistics :=
  let total := TLSStats.Total stats in
  {| TLSStatistics.GenerationDate := midnightUTC R now;
     TLSStatistics.StartDate := start;
     TLSStatistics.EndDate := end_;
     TLSStatistics.Protocols :=
       (λ pp, Entry.Build (k pp) (percentOf (v pp) total) (getProtocolName (k pp)))
         <$> sortedCounts R (TLSStats.Protocols stats);
     TLSStatistics.Ciphers :=
       (λ cc, Entry.Build (k cc) (percentOf (v cc) total) (getCipherName T (k cc) names))
         <$> sortedCounts R (TLSStats.Ciphers stats);
     TLSStatistics.Curves :=
       (λ cc, Entry.Build (k cc) (percentOf (v cc) total) (getCurveName T (k cc)))
         <$> sortedCounts R (TLSStats.Curves stats) |}.

(** The entries of a report sequence follow [data]: same identifiers, in
    the same order. *)
Definition follows (entries : list Entry) (data : kv) : Prop :=
  Entry.ID <$> entries = k <$> data.

(** A report sequence lists each identifier of [counts] once, with the
    count's share of [total] as its percent. *)
Definition sharesOf (counts : gmap Z Z) (total : Z) (entries : list Entry) : Prop :=
  (λ e, (Entry.ID e, Entry.Percent e)) <$> entries
  ≡ₚ (λ e, (e.1, percentOf e.2 total)) <$> map_to_list counts.

(** The number of usage records that normalize to [key]. *)
Definition recordsWithKey (T : Tables) (key : string) (browsers : list Browser) : Z :=
  Z.of_nat (length (filter (λ b, browserKey T b = key) browsers)).

(** The keys of the capability profiles. *)
Definition profileKeys (devices : list Device) : list string := deviceKey <$> devices.

(** A profile whose protocol loop exits. *)
Definition boundedProtocols (dev : Device) : Prop :=
  Device.HighestProtocol dev ≠ max_int64.

Definition sumZ (l : list Z) : Z := foldr Z.add 0 l.

(** The weight of the usage records whose key matches a profile, before
    any wrap-around. *)
Definition matchedWeight (T : Tables) (browsers : list Browser) (devices : list Device) : Z :=
  sumZ (Browser.Count <$> filter (λ b, browserKey T b ∈ profileKeys devices) browsers).

(** ** The lookup form of a report *)

Module MappedTLSStatistics.
Record t : Type := Build {
  Protocols : gmap Z Entry;
  Ciphers : gmap Z Entry;
  Curves : gmap Z Entry
}.
End MappedTLSStatistics.
Abbreviation MappedTLSStatistics := MappedTLSStatistics.t.

(** One loop of [ToMapped]: [data[x.ID] = x] for each entry. *)
Definition entriesByID (entries : list Entry) : gmap Z Entry :=
  foldl (λ data x, <[Entry.ID x := x]> data) ∅ entries.

Definition ToMapped (t : TLSStatistics) : MappedTLSStatistics :=
  {| MappedTLSStatistics.Protocols := entriesByID (TLSStatistics.Protocols t);
     MappedTLSStatistics.Ciphers := entriesByID (TLSStatistics.Ciphers t);
     MappedTLSStatistics.Curves := entriesByID (TLSStatistics.Curves t) |}.

(** ** [PrintStats] *)

(** What [fmt.Printf] makes of the operand of [%s]: [String] renders the
    report of [toJSONStruct], and a panic raised inside [String] is
    recovered by [fmt], which prints a note of it in place of the text. *)
Inductive Printed : Type :=
| Rendered (st : TLSStatistics)
| PanicNote.

(** The operand as [fmt] prints it.  [toJSONStruct] has no loop that could
    fail to end, so [String] returns or panics. *)
Definition printOperand (R : Runtime) (T : Tables) (now0 : Time) (stats : TLSStats) : Printed :=
  match toJSONStruct R T now0 stats now0 now0 with
  | Returns st => Rendered st
  | _ => PanicNote
  end.

(** [PrintStats], with what it prints.  The error of [DownloadData] and the
    results of [GetStats] are dropped; a panic of [analyseStats] is not
    recovered. *)
Definition PrintStats (R : Runtime) (T : Tables) (forceDownload : bool) (w : World)
  : outcome (World * Printed) :=
  let w1 := (DownloadData forceDownload w).1 in
  '(stats, _, _) ← loadAndAnalyse R T w1;
  let printed := printOperand R T (now w1) stats in
  r ← GetStats R T false w1;
  Returns (r.1, printed).

(** ** Notions used in the statements below *)

(** No byte of [s] is a colon. *)
Fixpoint noColon (s : string) : bool :=
  match s with
  | EmptyString => true
  | String c rest => negb (Ascii.eqb c ":"%char) && noColon rest
  end.

(** The table [collapseVersion] consults for a family, if any. *)
Definition versionTable (T : Tables) (fam : string) : option (gmap string string) :=
  switch fam
    [ ("Chrome", Some (chromeVers T)); ("Firefox", Some (firefoxVers T));
      ("Android", Some (androidVers T)); ("Safari", Some (safariVers T));
      ("Opera", Some (operaVers T)); ("Edge", Some (edgeVers T));
      ("IE", Some (ieVers T)) ]
    None.

(** The effective lowest protocol of a profile. *)
Definition effectiveLowest (dev : Device) : Z :=
  if 768 <? Device.LowestProtocol dev then Device.LowestProtocol dev else 768.

(** A weight an [int64] holds. *)
Definition isInt64 (c : Z) : Prop := min_int64 ≤ c ≤ max_int64.

(** The suite ids of the devices with the names beside them, in order. *)
Definition suitePairs (devices : list Device) : list (Z * string) :=
  devices ≫= λ dev, zip (Device.SuiteIds dev) (Device.SuiteNames dev).

(** The counts of a tally lie between 0 and its total; for cipher suites
    and curves this rests on profiles that list no identifier twice. *)
Definition countsWithinTotal (devices : list Device) (acc : Tally) : Prop :=
  0 ≤ t_total acc
  ∧ (∀ p x, t_protocols acc !! p = Some x → 0 ≤ x ≤ t_total acc)
  ∧ (Forall (λ d, NoDup (Device.SuiteIds d)) devices →
     ∀ id x, t_ciphers acc !! id = Some x → 0 ≤ x ≤ t_total acc)
  ∧ (Forall (λ d, NoDup (Device.EllipticCurves d)) devices →
     ∀ id x, t_curves acc !! id = Some x → 0 ≤ x ≤ t_total acc).

(** Every entry of a tally is declared by some device. *)
Definition fromProfiles (devices : list Device) (acc : Tally) : Prop :=
  (∀ p, is_Some (t_protocols acc !! p) →
     768 ≤ p ∧ ∃ dev, dev ∈ devices
       ∧ Device.LowestProtocol dev ≤ p ≤ Device.HighestProtocol dev)
  ∧ (∀ id, is_Some (t_ciphers acc !! id) →
       ∃ dev, dev ∈ devices ∧ id ∈ Device.SuiteIds dev)
  ∧ (∀ id, is_Some (t_curves acc !! id) →
       ∃ dev, dev ∈ devices ∧ id ∈ Device.EllipticCurves dev).

(** A usage file of four lines: the second is too short to be read, and
    the first is more than a year older than the last. *)
Definition sampleUsageFile : list string :=
  [ tabSeparated ["19300"; "Windows"; "10"; "Chrome"; "90"; "55"];
    tabSeparated ["19600"; "Windows"];
    tabSeparated ["19650"; "Mac OS X"; "11"; "Safari"; "14"; "30"];
    tabSeparated ["19700"; "Linux"; "5"; "Firefox"; "73"; "45"] ].

(** * Proofs *)

(** ** The sample runtimes honour the contracts *)

Lemma insertLeft_perm x sorted : insertLeft x sorted ≡ₚ x :: sorted.
Proof.
  induction sorted as [|y rest IH]; simpl; [done|].
  destruct (Less x y); [|done].
  rewrite IH. apply Permutation_swap.
Qed.

Lemma insertLeft_sorted x sorted :
  StronglySorted (λ a b, Less a b = false) sorted →
  StronglySorted (λ a b, Less a b = false) (insertLeft x sorted).
Proof.
  induction 1 as [|y rest Hrest IH Hy]; simpl.
  { repeat constructor. }
  destruct (Less x y) eqn:Hxy; unfold Less in *.
  - constructor; [done|].
    rewrite insertLeft_perm. constructor; [|done].
    apply Z.ltb_ge. apply Z.ltb_lt in Hxy. lia.
  - constructor; [by constructor|].
    constructor; [done|].
    eapply Forall_impl; [exact Hy|]. intros z Hz; simpl in Hz.
    apply Z.ltb_ge. apply Z.ltb_ge in Hxy, Hz. lia.
Qed.

Lemma StronglySorted_reverse {A} (R : relation A) l :
  StronglySorted R l → StronglySorted (flip R) (reverse l).
Proof.
  induction 1 as [|x l Hl IH Hx]; [constructor|].
  rewrite reverse_cons. apply StronglySorted_app_2; [|done|repeat constructor].
  intros a b Ha Hb. apply list_elem_of_singleton in Hb as ->.
  rewrite elem_of_reverse in Ha. rewrite Forall_forall in Hx. unfold flip. by apply Hx.
Qed.

Lemma insertionSort_perm data : insertionSort data ≡ₚ data.
Proof.
  unfold insertionSort. rewrite reverse_Permutation.
  assert (∀ acc, foldl (λ sorted x, insertLeft x sorted) acc data ≡ₚ data ++ acc) as H.
  { induction data as [|x data IH]; intros acc; simpl; [done|].
    rewrite IH, insertLeft_perm. by rewrite Permutation_middle. }
  by rewrite H, app_nil_r.
Qed.

Lemma insertionSort_sorted data :
  StronglySorted (λ x y, Less y x = false) (insertionSort data).
Proof.
  unfold insertionSort.
  apply (StronglySorted_reverse (λ a b, Less a b = false)).
  assert (∀ acc, StronglySorted (λ a b, Less a b = false) acc →
    StronglySorted (λ a b, Less a b = false)
      (foldl (λ sorted x, insertLeft x sorted) acc data)) as H.
  { induction data as [|x data IH]; intros acc Hacc; simpl; [done|].
    by apply IH, insertLeft_sorted. }
  apply H. constructor.
Qed.

Lemma sampleRuntime_ok : RuntimeOK sampleRuntime.
Proof.
  split; simpl.
  - done.
  - intros counts. apply merge_sort_Permutation.
  - apply insertionSort_perm.
  - apply insertionSort_sorted.
Qed.

Lemma reversedRuntime_ok : RuntimeOK reversedRuntime.
Proof.
  split; simpl.
  - intros usage. apply reverse_Permutation.
  - intros counts. apply merge_sort_Permutation.
  - apply insertionSort_perm.
  - apply insertionSort_sorted.
Qed.

Lemma descendingRuntime_ok : RuntimeOK descendingRuntime.
Proof.
  split; simpl.
  - done.
  - intros counts. apply merge_sort_Permutation.
  - apply insertionSort_perm.
  - apply insertionSort_sorted.
Qed.

(** ** Loops that return *)

Lemma forEach_returns {A S} (body : S → A → outcome S) xs acc :
  (∀ acc x, x ∈ xs → ∃ acc', body acc x = Returns acc') →
  ∃ result, forEach body xs acc = Returns result.
Proof.
  revert acc. induction xs as [|x xs IH]; intros acc Hbody; simpl.
  { by eexists. }
  destruct (Hbody acc x) as [acc' ->]; [left|]. simpl.
  apply IH. intros acc0 y Hy. apply Hbody. by right.
Qed.

Lemma forEach_cons {A S} (body : S → A → outcome S) x xs acc :
  forEach body (x :: xs) acc = acc' ← body acc x; forEach body xs acc'.
Proof. reflexivity. Qed.

Lemma forEach_app {A S} (body : S → A → outcome S) xs ys acc :
  forEach body (xs ++ ys) acc = acc' ← forEach body xs acc; forEach body ys acc'.
Proof.
  revert acc. induction xs as [|x xs IH]; intros acc; simpl; [done|].
  destruct (body acc x); simpl; auto.
Qed.

(** ** [cipherMaps] *)

Lemma cipherMapsDevice_returns out dev :
  namesAligned dev → ∃ out', cipherMapsDevice out dev = Returns out'.
Proof.
  intros Hlen. apply forEach_returns. intros acc [ind id] Hin.
  apply elem_of_lookup_imap in Hin as (i & x & [= -> ->] & Hi).
  destruct (acc !! x); [by eexists|].
  destruct (lookup_lt_is_Some_2 (Device.SuiteNames dev) i) as [name ->].
  { rewrite Hlen. by eapply lookup_lt_Some. }
  by eexists.
Qed.

Lemma cipherMaps_returns devices :
  Forall namesAligned devices → ∃ out, cipherMaps devices = Returns out.
Proof.
  intros Hall. apply forEach_returns. intros acc dev Hdev.
  apply cipherMapsDevice_returns. rewrite Forall_forall in Hall. by apply Hall.
Qed.

(** C10. When every device has as many suite names as suite ids,
    [cipherMaps] returns: each [dev.SuiteNames[ind]] it evaluates is in
    range.  The equality of lengths is needed: on a device with one suite id
    and no name the index expression panics. *)
Theorem cipherMaps_in_bounds :
  (∀ devices, Forall namesAligned devices → ∃ out, cipherMaps devices = Returns out)
  ∧ (¬ namesAligned namelessProfile ∧ cipherMaps [namelessProfile] = Panics).
Proof.
  split; [apply cipherMaps_returns|].
  split; [discriminate|reflexivity].
Qed.

Lemma cipherMaps_in_bounds_witness :
  Forall namesAligned [chrome90Profile; emptyRangeProfile]
  ∧ ∃ out, cipherMaps [chrome90Profile; emptyRangeProfile] = Returns out.
Proof.
  assert (Forall namesAligned [chrome90Profile; emptyRangeProfile]) as H.
  { repeat constructor. }
  split; [exact H|].
  exact (proj1 cipherMaps_in_bounds [chrome90Profile; emptyRangeProfile] H).
Defined.

(** ** The report builder *)

Lemma sortedCounts_perm R counts :
  RuntimeOK R → sortedCounts R counts ≡ₚ entriesOf counts.
Proof.
  intros HR. unfold sortedCounts, entriesOf.
  rewrite (sortSort_perm R HR). by rewrite (rangeCounts_perm R HR).
Qed.

Lemma sortedCounts_descending R counts :
  RuntimeOK R → descendingByCount (sortedCounts R counts).
Proof.
  intros HR. unfold sortedCounts, descendingByCount.
  generalize (sortSort_sorted R HR ((λ e, KV e.1 e.2) <$> rangeCounts R counts)).
  induction 1 as [|x data Hdata IH Hx]; constructor; [done|].
  eapply Forall_impl; [exact Hx|]. intros y Hy; simpl in Hy.
  unfold Less in Hy. by apply Z.ltb_ge in Hy.
Qed.

Lemma toJSONStruct_returns R T now stats start end_ :
  Forall namesAligned (TLSStats.devices stats) →
  ∃ names, cipherMaps (TLSStats.devices stats) = Returns names
    ∧ toJSONStruct R T now stats start end_
      = Returns (reportOf R T now stats start end_ names).
Proof.
  intros Hdev. destruct (cipherMaps_returns _ Hdev) as [names Hnames].
  exists names. split; [done|].
  unfold toJSONStruct. simpl. by rewrite Hnames.
Qed.

(** C3, as the code has it.  With a runtime that honours its contracts and
    devices whose names are aligned, [toJSONStruct] returns a report whose
    three sequences follow the entries of the three count maps, each entry
    once, sorted by descending count.  [kv.Less] compares counts only, so
    the order of entries of equal count is the one [sort.Sort] leaves, which
    depends on the order of the [range] over the map. *)
Theorem report_sorted_by_descending_count R T now stats start end_ :
  RuntimeOK R →
  Forall namesAligned (TLSStats.devices stats) →
  ∃ statistics protocols ciphers curves,
    toJSONStruct R T now stats start end_ = Returns statistics
    ∧ (protocols ≡ₚ entriesOf (TLSStats.Protocols stats)
       ∧ descendingByCount protocols
       ∧ follows (TLSStatistics.Protocols statistics) protocols)
    ∧ (ciphers ≡ₚ entriesOf (TLSStats.Ciphers stats)
       ∧ descendingByCount ciphers
       ∧ follows (TLSStatistics.Ciphers statistics) ciphers)
    ∧ (curves ≡ₚ entriesOf (TLSStats.Curves stats)
       ∧ descendingByCount curves
       ∧ follows (TLSStatistics.Curves statistics) curves).
Proof.
  intros HR Hdev.
  destruct (toJSONStruct_returns R T now stats start end_ Hdev) as (names & _ & ->).
  exists (reportOf R T now stats start end_ names),
    (sortedCounts R (TLSStats.Protocols stats)),
    (sortedCounts R (TLSStats.Ciphers stats)),
    (sortedCounts R (TLSStats.Curves stats)).
  split; [done|].
  repeat split; auto using sortedCounts_perm, sortedCounts_descending;
    unfold follows; simpl; rewrite <- list_fmap_compose; by apply list_fmap_ext.
Qed.

Lemma report_sorted_by_descending_count_witness :
  RuntimeOK descendingRuntime
  ∧ Forall namesAligned (TLSStats.devices scenarioA)
  ∧ ∃ statistics protocols ciphers curves,
      toJSONStruct descendingRuntime sampleTables 1700000000 scenarioA 0 0
      = Returns statistics
      ∧ (protocols ≡ₚ entriesOf (TLSStats.Protocols scenarioA)
         ∧ descendingByCount protocols
         ∧ follows (TLSStatistics.Protocols statistics) protocols)
      ∧ (ciphers ≡ₚ entriesOf (TLSStats.Ciphers scenarioA)
         ∧ descendingByCount ciphers
         ∧ follows (TLSStatistics.Ciphers statistics) ciphers)
      ∧ (curves ≡ₚ entriesOf (TLSStats.Curves scenarioA)
         ∧ descendingByCount curves
         ∧ follows (TLSStatistics.Curves statistics) curves).
Proof.
  assert (Forall namesAligned (TLSStats.devices scenarioA)) as Hdev.
  { repeat constructor. }
  split; [exact descendingRuntime_ok|]. split; [exact Hdev|].
  exact (report_sorted_by_descending_count descendingRuntime sampleTables
           1700000000 scenarioA 0 0 descendingRuntime_ok Hdev).
Defined.

(** C3 as stated fails.  On the tally of Scenario A, where the four
    protocols have the count 100, a [range] that visits the map by
    descending key yields the report order 772, 771, 770, 769: entries of
    equal count in descending order of identifier. *)
Lemma ties_follow_range_order :
  RuntimeOK descendingRuntime
  ∧ (λ statistics, Entry.ID <$> TLSStatistics.Protocols statistics)
      <$> toJSONStruct descendingRuntime sampleTables 1700000000 scenarioA 0 0
    = Returns [772; 771; 770; 769]
  ∧ ¬ tiesAscending (TLSStats.protocols (TLSStats_sort descendingRuntime scenarioA)).
Proof.
  split; [exact descendingRuntime_ok|]. split; [by vm_compute|].
  assert (TLSStats.protocols (TLSStats_sort descendingRuntime scenarioA)
          = [KV 772 100; KV 771 100; KV 770 100; KV 769 100]) as -> by (by vm_compute).
  intros Hsorted. apply StronglySorted_cons in Hsorted as [Hhead _].
  apply Forall_cons in Hhead as [Hfirst _]. simpl in Hfirst. lia.
Qed.

Lemma sharesOf_sortedCounts R counts total (name : Z → string) :
  RuntimeOK R →
  sharesOf counts total
    ((λ x, Entry.Build (k x) (percentOf (v x) total) (name (k x)))
       <$> sortedCounts R counts).
Proof.
  intros HR. unfold sharesOf. rewrite <- list_fmap_compose.
  rewrite (sortedCounts_perm R counts HR). unfold entriesOf.
  by rewrite <- list_fmap_compose.
Qed.

(** C1, as the code has it.  Each of the three sequences of the report
    lists every identifier of its count map once, and the percent beside it
    is [float64(count) / float64(Total)].  A client counts towards every
    protocol, cipher and curve it supports, so the percents of a sequence
    are shares of the same total and need not add up to 1. *)
Theorem report_percent_is_share_of_total R T now stats start end_ :
  RuntimeOK R →
  Forall namesAligned (TLSStats.devices stats) →
  ∃ statistics,
    toJSONStruct R T now stats start end_ = Returns statistics
    ∧ sharesOf (TLSStats.Protocols stats) (TLSStats.Total stats)
               (TLSStatistics.Protocols statistics)
    ∧ sharesOf (TLSStats.Ciphers stats) (TLSStats.Total stats)
               (TLSStatistics.Ciphers statistics)
    ∧ sharesOf (TLSStats.Curves stats) (TLSStats.Total stats)
               (TLSStatistics.Curves statistics).
Proof.
  intros HR Hdev.
  destruct (toJSONStruct_returns R T now stats start end_ Hdev) as (names & _ & ->).
  eexists. split; [done|]. simpl.
  split; [|split].
  - by apply (sharesOf_sortedCounts R _ _ getProtocolName).
  - by apply (sharesOf_sortedCounts R _ _ (λ c, getCipherName T c names)).
  - by apply (sharesOf_sortedCounts R _ _ (getCurveName T)).
Qed.

Lemma report_percent_is_share_of_total_witness :
  RuntimeOK sampleRuntime
  ∧ Forall namesAligned (TLSStats.devices scenarioA)
  ∧ ∃ statistics,
      toJSONStruct sampleRuntime sampleTables 1700000000 scenarioA 0 0
      = Returns statistics
      ∧ sharesOf (TLSStats.Protocols scenarioA) (TLSStats.Total scenarioA)
                 (TLSStatistics.Protocols statistics)
      ∧ sharesOf (TLSStats.Ciphers scenarioA) (TLSStats.Total scenarioA)
                 (TLSStatistics.Ciphers statistics)
      ∧ sharesOf (TLSStats.Curves scenarioA) (TLSStats.Total scenarioA)
                 (TLSStatistics.Curves statistics).
Proof.
  assert (Forall namesAligned (TLSStats.devices scenarioA)) as Hdev.
  { repeat constructor. }
  split; [exact sampleRuntime_ok|]. split; [exact Hdev|].
  exact (report_percent_is_share_of_total sampleRuntime sampleTables
           1700000000 scenarioA 0 0 sampleRuntime_ok Hdev).
Defined.

(** C1 as stated fails.  Scenario A gives a tally of total weight 100 in
    which each of the four protocols has the count 100; the four percents of
    the report are 1.0 and their sum is 4.0. *)
Lemma percents_sum_to_four :
  RuntimeOK sampleRuntime
  ∧ fst <$> analyseStats sampleRuntime sampleTables [chrome90] [chrome90Profile]
  = Returns (scenarioA, 1600000000)
  ∧ 0 < TLSStats.Total scenarioA
  ∧ (λ statistics, Entry.Percent <$> TLSStatistics.Protocols statistics)
      <$> toJSONStruct sampleRuntime sampleTables 1700000000 scenarioA 0 0
    = Returns [1%float; 1%float; 1%float; 1%float]
  ∧ (λ statistics, sumPercent (TLSStatistics.Protocols statistics))
      <$> toJSONStruct sampleRuntime sampleTables 1700000000 scenarioA 0 0
    = Returns 4%float
  ∧ (λ statistics, sumsToOne (TLSStatistics.Protocols statistics))
      <$> toJSONStruct sampleRuntime sampleTables 1700000000 scenarioA 0 0
    = Returns false.
Proof.
  split; [exact sampleRuntime_ok|].
  split; [by vm_compute|]. split; [done|].
  split; [by vm_compute|]. split; by vm_compute.
Qed.

(** ** The key normalizer *)

(** C9. The join key of a usage record is a function of its browser family
    and major version (and of the static tables): two records that agree on
    the two fields get the same key, whatever their dates, operating systems
    and counts.  [browserKey] takes neither a runtime nor a world, so no
    iteration order, clock or file can reach it. *)
Theorem browserKey_depends_on_family_and_version T (b1 b2 : Browser) :
  Browser.BrowserFamily b1 = Browser.BrowserFamily b2 →
  Browser.BrowserMajorVersion b1 = Browser.BrowserMajorVersion b2 →
  browserKey T b1 = browserKey T b2.
Proof.
  intros Hfamily Hversion. unfold browserKey.
  rewrite Hfamily. rewrite Hversion. reflexivity.
Qed.

Lemma browserKey_depends_on_family_and_version_witness :
  browserKey sampleTables chrome90
  = browserKey sampleTables
      {| Browser.Date := 1650000000; Browser.BrowserFamily := "Chrome";
         Browser.BrowserMajorVersion := "90"; Browser.OSFamily := "Mac OS X";
         Browser.OSMajorVersion := "11"; Browser.Count := 5 |}.
Proof.
  apply browserKey_depends_on_family_and_version; reflexivity.
Defined.

Lemma browserKey_chrome90 T date os osv count :
  chromeVers T !! "90" = None ∨ chromeVers T !! "90" = Some "90" →
  browserKey T (Browser.Build date "Chrome" "90" os osv count) = "Chrome:90".
Proof.
  intros Hvers. unfold browserKey, collapseVersion; simpl.
  unfold collapseWith. by destruct Hvers as [-> | ->].
Qed.

(** ** The join *)

Lemma deviceKeys_lookup_None devices (acc : gmap string bool) key :
  foldl (λ dk d, <[deviceKey d := true]> dk) acc devices !! key = None
  ↔ acc !! key = None ∧ key ∉ profileKeys devices.
Proof.
  unfold profileKeys. revert acc.
  induction devices as [|d devices IH]; intros acc; simpl.
  { rewrite elem_of_nil. tauto. }
  rewrite IH, not_elem_of_cons, lookup_insert_None. intuition congruence.
Qed.

Lemma deviceKeySet_lookup_None devices key :
  key ∉ profileKeys devices → deviceKeySet devices !! key = None.
Proof.
  intros Hkey. apply deviceKeys_lookup_None. by rewrite lookup_empty.
Qed.

Lemma joinBrowser_unmatched T deviceKeys j b :
  deviceKeys !! browserKey T b = None →
  found (joinBrowser T deviceKeys j b) = found j
  ∧ browserMap (joinBrowser T deviceKeys j b) = browserMap j
  ∧ notfound (joinBrowser T deviceKeys j b) = notfound j + 1.
Proof. intros Hkey. unfold joinBrowser. by rewrite Hkey. Qed.

Lemma joinBrowser_matched_part T deviceKeys j1 j2 b :
  found j1 = found j2 → browserMap j1 = browserMap j2 →
  found (joinBrowser T deviceKeys j1 b) = found (joinBrowser T deviceKeys j2 b)
  ∧ browserMap (joinBrowser T deviceKeys j1 b)
    = browserMap (joinBrowser T deviceKeys j2 b).
Proof.
  intros Hfound Hmap. unfold joinBrowser.
  destruct (deviceKeys !! browserKey T b); simpl; by rewrite ?Hfound, ?Hmap.
Qed.

Lemma joinBrowsers_matched_part T deviceKeys browsers j1 j2 :
  found j1 = found j2 → browserMap j1 = browserMap j2 →
  found (foldl (joinBrowser T deviceKeys) j1 browsers)
  = found (foldl (joinBrowser T deviceKeys) j2 browsers)
  ∧ browserMap (foldl (joinBrowser T deviceKeys) j1 browsers)
    = browserMap (foldl (joinBrowser T deviceKeys) j2 browsers).
Proof.
  revert j1 j2. induction browsers as [|b browsers IH]; intros j1 j2 Hf Hm; simpl.
  { done. }
  destruct (joinBrowser_matched_part T deviceKeys j1 j2 b Hf Hm) as [Hf' Hm'].
  by apply IH.
Qed.

Lemma notfound_unmatched_part T deviceKeys browsers j1 j2 n :
  notfound j1 = notfound j2 + n →
  notfound (foldl (joinBrowser T deviceKeys) j1 browsers)
  = notfound (foldl (joinBrowser T deviceKeys) j2 browsers) + n.
Proof.
  revert j1 j2. induction browsers as [|b browsers IH]; intros j1 j2 Hn; simpl.
  { done. }
  apply IH. unfold joinBrowser.
  destruct (deviceKeys !! browserKey T b); simpl; lia.
Qed.

Lemma analyseStats_stats R T browsers devices :
  (λ r, r.1.1) <$> analyseStats R T browsers devices
  = getTLSStats R (browserMap (joinBrowsers T browsers devices)) devices.
Proof.
  unfold analyseStats.
  destruct (getTLSStats R _ devices) as [stats| |]; simpl; try done.
  by destruct (getDateRange browsers).
Qed.

(** C4. A usage record whose key matches no profile can be taken out of
    the input without changing the counts: the per-key weights handed to
    [getTLSStats], hence the three count maps and [Total] (the denominator
    of every percent), are the same with and without it.  The record shows
    only in the diagnostic counter [notfound]. *)
Theorem unmatched_record_contributes_nothing R T devices before b after :
  browserKey T b ∉ profileKeys devices →
  browserMap (joinBrowsers T (before ++ b :: after) devices)
  = browserMap (joinBrowsers T (before ++ after) devices)
  ∧ (λ r, r.1.1) <$> analyseStats R T (before ++ b :: after) devices
    = (λ r, r.1.1) <$> analyseStats R T (before ++ after) devices
  ∧ found (joinBrowsers T (before ++ b :: after) devices)
    = found (joinBrowsers T (before ++ after) devices)
  ∧ notfound (joinBrowsers T (before ++ b :: after) devices)
    = notfound (joinBrowsers T (before ++ after) devices) + 1.
Proof.
  intros Hkey. apply deviceKeySet_lookup_None in Hkey as Hnone.
  unfold joinBrowsers in *. rewrite !foldl_app. simpl.
  set (deviceKeys := deviceKeySet devices) in *.
  set (j := foldl (joinBrowser T deviceKeys) _ before).
  destruct (joinBrowser_unmatched T deviceKeys j b Hnone) as (Hf & Hm & Hn).
  destruct (joinBrowsers_matched_part T deviceKeys after _ _ Hf Hm) as [Hf' Hm'].
  assert (browserMap (joinBrowsers T (before ++ b :: after) devices)
          = browserMap (joinBrowsers T (before ++ after) devices)) as Hmap.
  { unfold joinBrowsers. rewrite !foldl_app. exact Hm'. }
  split; [exact Hm'|]. split; [|split].
  - rewrite !analyseStats_stats. by rewrite Hmap.
  - exact Hf'.
  - by apply notfound_unmatched_part.
Qed.

Lemma unmatched_record_contributes_nothing_witness :
  (browserKey sampleTables lynx2 ∉ profileKeys [chrome90Profile])
  ∧ browserMap (joinBrowsers sampleTables ([chrome90] ++ lynx2 :: [chrome90])
                             [chrome90Profile])
    = browserMap (joinBrowsers sampleTables ([chrome90] ++ [chrome90]) [chrome90Profile])
  ∧ (λ r, r.1.1) <$> analyseStats sampleRuntime sampleTables
                       ([chrome90] ++ lynx2 :: [chrome90]) [chrome90Profile]
    = (λ r, r.1.1) <$> analyseStats sampleRuntime sampleTables
                         ([chrome90] ++ [chrome90]) [chrome90Profile]
  ∧ found (joinBrowsers sampleTables ([chrome90] ++ lynx2 :: [chrome90])
                        [chrome90Profile])
    = found (joinBrowsers sampleTables ([chrome90] ++ [chrome90]) [chrome90Profile])
  ∧ notfound (joinBrowsers sampleTables ([chrome90] ++ lynx2 :: [chrome90])
                           [chrome90Profile])
    = notfound (joinBrowsers sampleTables ([chrome90] ++ [chrome90]) [chrome90Profile])
      + 1.
Proof.
  assert (browserKey sampleTables lynx2 ∉ profileKeys [chrome90Profile]) as Hkey.
  { apply not_elem_of_cons. split; [discriminate|apply not_elem_of_nil]. }
  split; [exact Hkey|].
  exact (unmatched_record_contributes_nothing sampleRuntime sampleTables
           [chrome90Profile] [chrome90] lynx2 [chrome90] Hkey).
Defined.

(** C6, as the code has it.  For a key that matches no profile, the
    diagnostic map [m] holds the number of usage records that normalize to
    the key (no entry when there is none): it goes up by one with each such
    record, and [notfound] counts all unmatched records. *)
Theorem unmatched_counter_counts_records T browsers devices key :
  key ∉ profileKeys devices →
  m (joinBrowsers T browsers devices) !! key
  = (if decide (recordsWithKey T key browsers = 0) then None
     else Some (recordsWithKey T key browsers)).
Proof.
  intros Hkey. apply deviceKeySet_lookup_None in Hkey as Hnone.
  unfold joinBrowsers, recordsWithKey.
  set (deviceKeys := deviceKeySet devices) in *.
  induction browsers as [|b browsers IH] using rev_ind; [done|].
  rewrite foldl_app, filter_app, length_app, Nat2Z.inj_add. simpl.
  set (j := foldl (joinBrowser T deviceKeys) _ browsers) in *.
  set (n := Z.of_nat (length (filter (λ b0, browserKey T b0 = key) browsers))) in *.
  assert (0 ≤ n) as Hn by (unfold n; lia).
  unfold joinBrowser. rewrite filter_cons, filter_nil.
  destruct (decide (browserKey T b = key)) as [->|Hne]; simpl.
  - rewrite Hnone. simpl. rewrite IH.
    destruct (decide (n = 0)) as [->|Hn0]; rewrite lookup_insert_eq;
      destruct (decide _); first [lia | done].
  - rewrite Z.add_0_r.
    destruct (deviceKeys !! browserKey T b); simpl; [done|].
    destruct (m j !! browserKey T b); by rewrite lookup_insert_ne.
Qed.

Lemma unmatched_counter_counts_records_witness :
  ("Lynx:2" ∉ profileKeys [chrome90Profile])
  ∧ m (joinBrowsers sampleTables [lynx2; chrome90; lynx2] [chrome90Profile]) !! "Lynx:2"
    = (if decide (recordsWithKey sampleTables "Lynx:2" [lynx2; chrome90; lynx2] = 0)
       then None
       else Some (recordsWithKey sampleTables "Lynx:2" [lynx2; chrome90; lynx2])).
Proof.
  assert ("Lynx:2" ∉ profileKeys [chrome90Profile]) as Hkey.
  { apply not_elem_of_cons. split; [discriminate|apply not_elem_of_nil]. }
  split; [exact Hkey|].
  exact (unmatched_counter_counts_records sampleTables [lynx2; chrome90; lynx2]
           [chrome90Profile] "Lynx:2" Hkey).
Defined.

(** C6 as stated fails.  Two usage records normalize to the key "Lynx:2",
    which no profile has: one distinct unmatched key, and the counter of
    the key is 2, one increment for each record. *)
Lemma unmatched_counter_is_per_record :
  browserKey sampleTables lynx2 = "Lynx:2"
  ∧ ("Lynx:2" ∉ profileKeys [chrome90Profile])
  ∧ m (joinBrowsers sampleTables [lynx2; lynx2] [chrome90Profile]) !! "Lynx:2" = Some 2
  ∧ m (joinBrowsers sampleTables [lynx2; lynx2] [chrome90Profile]) !! "Lynx:2" ≠ Some 1
  ∧ notfound (joinBrowsers sampleTables [lynx2; lynx2] [chrome90Profile]) = 2.
Proof.
  split; [reflexivity|]. split.
  { apply not_elem_of_cons. split; [discriminate|apply not_elem_of_nil]. }
  assert (m (joinBrowsers sampleTables [lynx2; lynx2] [chrome90Profile]) !! "Lynx:2"
          = Some 2) as Hm by (by vm_compute).
  split; [exact Hm|]. split; [by rewrite Hm|by vm_compute].
Qed.

(** ** Aggregation *)

Lemma range_singleton R (key : string) (count : Z) :
  RuntimeOK R → rangeBrowsers R {[ key := count ]} = [(key, count)].
Proof.
  intros HR. apply Permutation_singleton_r.
  rewrite (rangeBrowsers_perm R HR). by rewrite map_to_list_singleton.
Qed.

Lemma deviceIndex_lookup devices key dev :
  deviceIndex devices !! key = Some dev → dev ∈ devices ∧ deviceKey dev = key.
Proof.
  unfold deviceIndex.
  assert (∀ acc : gmap string Device,
            foldl (λ dk d, <[deviceKey d := d]> dk) acc devices !! key = Some dev →
            acc !! key = Some dev ∨ (dev ∈ devices ∧ deviceKey dev = key)) as H.
  { induction devices as [|d devices IH]; intros acc Hacc; simpl in *; [by left|].
    destruct (IH _ Hacc) as [Hd|[Hd ?]].
    - apply lookup_insert_Some in Hd as [[<- <-]|[_ Hd]]; [|by left].
      right. split; [left|done].
    - right. split; [by right|done]. }
  intros Hlookup. destruct (H ∅ Hlookup) as [Hempty|?]; [|done].
  by rewrite lookup_empty in Hempty.
Qed.

(** C5. Scenario A: one usage record of Chrome 90 with weight 100 and one
    profile of Chrome 90 with protocols 769 to 772, cipher 4865 and curve
    29.  The version table of Chrome is outside the modelled files; the
    scenario reads it as leaving version 90 alone, and under that reading
    the engine returns the four protocol counts, the cipher count and the
    curve count of 100 each, and the total weight 100. *)
Theorem scenario_A R T date os osv platform names :
  RuntimeOK R →
  chromeVers T !! "90" = None ∨ chromeVers T !! "90" = Some "90" →
  let usage := Browser.Build date "Chrome" "90" os osv 100 in
  let profile := Device.Build "Chrome" platform "90" 769 772 [4865] names [29] in
  ∃ stats,
    analyseStats R T [usage] [profile] = Returns (stats, date, date)
    ∧ TLSStats.Protocols stats = {[ 769 := 100; 770 := 100; 771 := 100; 772 := 100 ]}
    ∧ TLSStats.Ciphers stats = {[ 4865 := 100 ]}
    ∧ TLSStats.Curves stats = {[ 29 := 100 ]}
    ∧ TLSStats.Total stats = 100.
Proof.
  intros HR Hvers usage profile.
  assert (joinBrowsers T [usage] [profile]
          = {| found := 1; notfound := 0; m := ∅;
               browserMap := {[ "Chrome:90" := 100 ]} |}) as Hjoin.
  { assert (browserKey T usage = "Chrome:90") as Hkey
      by exact (browserKey_chrome90 T date os osv 100 Hvers).
    unfold joinBrowsers, joinBrowser; simpl. rewrite !Hkey. by vm_compute. }
  unfold analyseStats. rewrite Hjoin; simpl.
  unfold getTLSStats. rewrite (range_singleton R _ _ HR).
  unfold After, Before. rewrite Z.ltb_irrefl.
  eexists. split; [reflexivity|].
  repeat split; by vm_compute.
Qed.

Lemma scenario_A_witness :
  RuntimeOK sampleRuntime
  ∧ (chromeVers sampleTables !! "90" = None ∨ chromeVers sampleTables !! "90" = Some "90")
  ∧ ∃ stats,
      analyseStats sampleRuntime sampleTables [chrome90] [chrome90Profile]
      = Returns (stats, 1600000000, 1600000000)
      ∧ TLSStats.Protocols stats = {[ 769 := 100; 770 := 100; 771 := 100; 772 := 100 ]}
      ∧ TLSStats.Ciphers stats = {[ 4865 := 100 ]}
      ∧ TLSStats.Curves stats = {[ 29 := 100 ]}
      ∧ TLSStats.Total stats = 100.
Proof.
  assert (chromeVers sampleTables !! "90" = None
          ∨ chromeVers sampleTables !! "90" = Some "90") as Hvers.
  { left. reflexivity. }
  split; [exact sampleRuntime_ok|]. split; [exact Hvers|].
  exact (scenario_A sampleRuntime sampleTables 1600000000 "Windows" "10" "Win 10"
           ["TLS_AES_128_GCM_SHA256"] sampleRuntime_ok Hvers).
Defined.

Lemma addCount_lookup counts id c :
  addCount counts id c !! id
  = Some (match counts !! id with Some count => add64 count c | None => c end).
Proof. unfold addCount. destruct (counts !! id); by rewrite lookup_insert_eq. Qed.

Lemma addCount_is_Some counts id id' c :
  is_Some (counts !! id') → is_Some (addCount counts id c !! id').
Proof.
  intros Hsome. unfold addCount.
  destruct (counts !! id); rewrite lookup_insert; by case_decide.
Qed.

Lemma addCounts_is_Some ids counts id c :
  id ∈ ids ∨ is_Some (counts !! id) →
  is_Some (foldl (λ m cid, addCount m cid c) counts ids !! id).
Proof.
  revert counts. induction ids as [|cid ids IH]; intros counts Hid; simpl.
  { destruct Hid as [Hid|Hid]; [by apply elem_of_nil in Hid|done]. }
  apply IH. destruct Hid as [Hid|Hid].
  - apply elem_of_cons in Hid as [->|Hid]; [right|by left].
    rewrite addCount_lookup. by eexists.
  - right. by apply addCount_is_Some.
Qed.

Lemma countProtocols_empty_range lowestProtocol highest c protocols :
  highest < lowestProtocol →
  countProtocols lowestProtocol highest c protocols = Returns protocols.
Proof.
  intros Hempty. unfold countProtocols.
  rewrite bool_decide_false by lia. by rewrite seqZ_nil by lia.
Qed.

(** C8. In the loop of [getTLSStats], a usage key whose profile has a
    highest protocol below its effective lowest protocol (the larger of
    [LowestProtocol] and 768) leaves the protocol counts as they are; its
    weight is added to the count of each of the profile's cipher suites and
    curves, each of which has an entry afterwards, and to the total.  A run
    on that key alone returns no protocol count at all. *)
Theorem empty_protocol_range_still_counts R deviceKeys acc b c dev :
  RuntimeOK R →
  deviceKeys !! b = Some dev →
  Device.HighestProtocol dev < Z.max (Device.LowestProtocol dev) 768 →
  let ciphers := foldl (λ m cid, addCount m cid c) (t_ciphers acc) (Device.SuiteIds dev) in
  let curves :=
    foldl (λ m cid, addCount m cid c) (t_curves acc) (Device.EllipticCurves dev) in
  tallyBrowser deviceKeys acc (b, c)
  = Returns {| t_protocols := t_protocols acc; t_ciphers := ciphers;
               t_curves := curves; t_total := add64 (t_total acc) c |}
  ∧ (∀ id, id ∈ Device.SuiteIds dev → is_Some (ciphers !! id))
  ∧ (∀ id, id ∈ Device.EllipticCurves dev → is_Some (curves !! id))
  ∧ (∀ devices, deviceIndex devices = deviceKeys →
       ∃ stats, getTLSStats R {[ b := c ]} devices = Returns stats
         ∧ TLSStats.Protocols stats = ∅
         ∧ TLSStats.Ciphers stats
           = foldl (λ m cid, addCount m cid c) ∅ (Device.SuiteIds dev)
         ∧ TLSStats.Curves stats
           = foldl (λ m cid, addCount m cid c) ∅ (Device.EllipticCurves dev)
         ∧ TLSStats.Total stats = add64 0 c).
Proof.
  intros HR Hdev Hrange ciphers curves.
  assert (∀ acc0, tallyBrowser deviceKeys acc0 (b, c)
    = Returns {| t_protocols := t_protocols acc0;
                 t_ciphers := foldl (λ m cid, addCount m cid c) (t_ciphers acc0)
                                    (Device.SuiteIds dev);
                 t_curves := foldl (λ m cid, addCount m cid c) (t_curves acc0)
                                   (Device.EllipticCurves dev);
                 t_total := add64 (t_total acc0) c |}) as Hstep.
  { intros acc0. unfold tallyBrowser. rewrite Hdev.
    rewrite countProtocols_empty_range; [done|].
    destruct (768 <? Device.LowestProtocol dev) eqn:Hlow;
      [apply Z.ltb_lt in Hlow | apply Z.ltb_ge in Hlow]; lia. }
  split; [apply Hstep|].
  split; [intros id Hid; apply addCounts_is_Some; by left|].
  split; [intros id Hid; apply addCounts_is_Some; by left|].
  intros devices Hindex. unfold getTLSStats.
  rewrite (range_singleton R _ _ HR), Hindex. unfold forEach.
  rewrite Hstep. simpl.
  eexists. split; [reflexivity|]. done.
Qed.

Lemma empty_protocol_range_still_counts_witness :
  deviceIndex [emptyRangeProfile] !! "Chrome:90" = Some emptyRangeProfile
  ∧ Device.HighestProtocol emptyRangeProfile
    < Z.max (Device.LowestProtocol emptyRangeProfile) 768
  ∧ ∃ stats,
      getTLSStats sampleRuntime {[ "Chrome:90" := 100 ]} [emptyRangeProfile]
      = Returns stats
      ∧ TLSStats.Protocols stats = ∅
      ∧ TLSStats.Ciphers stats = {[ 4865 := 100; 4866 := 100 ]}
      ∧ TLSStats.Curves stats = {[ 29 := 100 ]}
      ∧ TLSStats.Total stats = 100.
Proof.
  assert (deviceIndex [emptyRangeProfile] !! "Chrome:90" = Some emptyRangeProfile)
    as Hdev by reflexivity.
  assert (Device.HighestProtocol emptyRangeProfile
          < Z.max (Device.LowestProtocol emptyRangeProfile) 768) as Hrange
    by (simpl; lia).
  destruct (empty_protocol_range_still_counts sampleRuntime
              (deviceIndex [emptyRangeProfile])
              {| t_protocols := ∅; t_ciphers := ∅; t_curves := ∅; t_total := 0 |}
              "Chrome:90" 100 emptyRangeProfile sampleRuntime_ok Hdev Hrange)
    as (_ & _ & _ & Hrun).
  destruct (Hrun [emptyRangeProfile] eq_refl) as (stats & Hstats & Hp & Hc & Hu & Ht).
  split; [exact Hdev|]. split; [exact Hrange|].
  exists stats. split; [exact Hstats|]. split; [exact Hp|].
  split; [rewrite Hc; reflexivity|]. split; [rewrite Hu; reflexivity|].
  rewrite Ht; reflexivity.
Defined.

(** ** The cache manager *)

Lemma DownloadData_keeps_reports force w :
  now (DownloadData force w).1 = now w
  ∧ jsonStatsOut (DownloadData force w).1 = jsonStatsOut w
  ∧ backups (DownloadData force w).1 = backups w.
Proof.
  unfold DownloadData.
  destruct (download (browserStatsData w) (netBrowserStats w) force) as [browsers [e|]];
    simpl; [done|].
  by destruct (download (deviceCiphers w) (netDeviceDetails w) force).
Qed.

Lemma toJSONStruct_GenerationDate R T now0 stats start end_ statistics :
  toJSONStruct R T now0 stats start end_ = Returns statistics →
  TLSStatistics.GenerationDate statistics = midnightUTC R now0.
Proof.
  unfold toJSONStruct. simpl.
  destruct (cipherMaps (TLSStats.devices stats)); simpl; [|done..].
  by intros [= <-].
Qed.

Lemma analyseAndWriteToFile_result R T w w' statistics err :
  analyseAndWriteToFile R T w = Returns (w', (statistics, err)) →
  TLSStatistics.GenerationDate statistics = midnightUTC R (now w)
  ∧ backups w' = backups w
  ∧ (err = None → jsonStatsOut w' = Some (Report statistics)).
Proof.
  unfold analyseAndWriteToFile.
  destruct (loadAndAnalyse R T w) as [[[stats start] end_]| |]; simpl; [|done..].
  destruct (toJSONStruct R T (now w) stats start end_) as [st| |] eqn:Hst;
    simpl; [|done..].
  apply toJSONStruct_GenerationDate in Hst.
  destruct (marshalable st); intros [= <- <- <-]; simpl; by repeat split.
Qed.

(** C2, on the code.  With the force flag unset and a cached file that
    [json.Unmarshal] rejects, [GetStats] returns what the failed parse left
    in its target and a nil error, and leaves every file as it is: the two
    errors are bound to a variable of the inner scope and no branch handles
    them.  On the sample data the pipeline it does not run would have
    returned the report of Scenario A. *)
Theorem unparsable_cache_is_returned_as_is :
  (∀ R T w partial,
     jsonStatsOut w = Some (Unparsable partial) →
     GetStats R T false w = Returns (w, (partial, None)))
  ∧ GetStats sampleRuntime sampleTables false (sampleWorld (Some (Unparsable noStatistics)))
    = Returns (sampleWorld (Some (Unparsable noStatistics)), (noStatistics, None))
  ∧ (λ r, length (TLSStatistics.Protocols r.2.1))
      <$> analyseAndWriteToFile sampleRuntime sampleTables
            (sampleWorld (Some (Unparsable noStatistics)))
    = Returns 4%nat.
Proof.
  split.
  - intros R T w partial Hcached. unfold GetStats. by rewrite Hcached.
  - split; by vm_compute.
Qed.

(** ** The order of [range] does not reach the tally *)

Lemma wrap64_add_l a b : wrap64 (wrap64 a + b) = wrap64 (a + b).
Proof.
  unfold wrap64. f_equal.
  replace ((a + 2 ^ 63) mod 2 ^ 64 - 2 ^ 63 + b + 2 ^ 63)
    with ((a + 2 ^ 63) mod 2 ^ 64 + b) by lia.
  rewrite Zplus_mod_idemp_l. f_equal. lia.
Qed.

Lemma add64_swap a c d : add64 (add64 a c) d = add64 (add64 a d) c.
Proof. unfold add64. rewrite !wrap64_add_l. f_equal. lia. Qed.

Lemma add64_comm c d : add64 c d = add64 d c.
Proof. unfold add64. f_equal. lia. Qed.

Lemma addCount_lookup_ne counts id c key :
  key ≠ id → addCount counts id c !! key = counts !! key.
Proof.
  intros Hne. unfold addCount. destruct (counts !! id); by rewrite lookup_insert_ne.
Qed.

Lemma addCount_swap counts i c j d :
  addCount (addCount counts i c) j d = addCount (addCount counts j d) i c.
Proof.
  destruct (decide (i = j)) as [->|Hne].
  - apply map_eq. intros key. destruct (decide (key = j)) as [->|Hkey].
    + rewrite !addCount_lookup. destruct (counts !! j); f_equal.
      * apply add64_swap.
      * apply add64_comm.
    + by rewrite !addCount_lookup_ne.
  - apply map_eq. intros key.
    destruct (decide (key = i)) as [->|Hi]; [|destruct (decide (key = j)) as [->|Hj]].
    + rewrite (addCount_lookup_ne _ j d i) by congruence.
      rewrite !addCount_lookup.
      by rewrite (addCount_lookup_ne _ j d i) by congruence.
    + rewrite (addCount_lookup_ne _ i c j) by congruence.
      rewrite !addCount_lookup.
      by rewrite (addCount_lookup_ne _ i c j) by congruence.
    + by rewrite !addCount_lookup_ne.
Qed.

Lemma addCounts_swap_one ids counts c j d :
  foldl (λ m cid, addCount m cid c) (addCount counts j d) ids
  = addCount (foldl (λ m cid, addCount m cid c) counts ids) j d.
Proof.
  revert counts. induction ids as [|i ids IH]; intros counts; simpl; [done|].
  by rewrite <- IH, addCount_swap.
Qed.

Lemma addCounts_swap ids1 ids2 counts c d :
  foldl (λ m cid, addCount m cid d) (foldl (λ m cid, addCount m cid c) counts ids1) ids2
  = foldl (λ m cid, addCount m cid c) (foldl (λ m cid, addCount m cid d) counts ids2) ids1.
Proof.
  revert counts. induction ids2 as [|j ids2 IH]; intros counts; simpl; [done|].
  by rewrite <- addCounts_swap_one, IH.
Qed.

Lemma tallyBrowser_swap deviceKeys acc x y :
  (acc' ← tallyBrowser deviceKeys acc x; tallyBrowser deviceKeys acc' y)
  = (acc' ← tallyBrowser deviceKeys acc y; tallyBrowser deviceKeys acc' x).
Proof.
  destruct x as [b1 c1], y as [b2 c2]. unfold tallyBrowser, countProtocols.
  destruct (deviceKeys !! b1) as [d1|], (deviceKeys !! b2) as [d2|]; simpl;
    repeat (case_bool_decide; simpl); try done;
    do 2 f_equal; auto using addCounts_swap, add64_swap.
Qed.

Lemma forEach_Permutation {A S} (body : S → A → outcome S) xs ys :
  (∀ acc x y, (acc' ← body acc x; body acc' y) = (acc' ← body acc y; body acc' x)) →
  xs ≡ₚ ys → ∀ acc, forEach body xs acc = forEach body ys acc.
Proof.
  intros Hswap. induction 1 as [|x xs ys _ IH|x y xs|xs ys zs _ IH1 _ IH2];
    intros acc; simpl.
  - done.
  - destruct (body acc x); simpl; auto.
  - pose proof (Hswap acc y x) as H.
    destruct (body acc y) as [a1| |], (body acc x) as [a2| |]; simpl in *;
      try done; try (by rewrite H); try (by rewrite <- H).
  - by rewrite IH1.
Qed.

(** X1. The tally does not depend on the order in which [range] visits the
    usage map: two runtimes that honour the contract return the same
    [TLSStats], or fail alike. *)
Theorem getTLSStats_order_irrelevant R1 R2 browsers devices :
  RuntimeOK R1 → RuntimeOK R2 →
  getTLSStats R1 browsers devices = getTLSStats R2 browsers devices.
Proof.
  intros H1 H2. unfold getTLSStats.
  rewrite (forEach_Permutation _ (rangeBrowsers R1 browsers) (rangeBrowsers R2 browsers));
    [done|apply tallyBrowser_swap|].
  by rewrite (rangeBrowsers_perm R1 H1), (rangeBrowsers_perm R2 H2).
Qed.

(** ** The pipeline returns on well-formed profiles *)

Lemma getTLSStats_returns R browsers devices :
  Forall boundedProtocols devices →
  ∃ stats, getTLSStats R browsers devices = Returns stats
    ∧ TLSStats.devices stats = devices.
Proof.
  intros Hbounded. unfold getTLSStats.
  destruct (forEach_returns (tallyBrowser (deviceIndex devices))
              (rangeBrowsers R browsers)
              {| t_protocols := ∅; t_ciphers := ∅; t_curves := ∅; t_total := 0 |})
    as [acc ->].
  - intros acc [b c] _. unfold tallyBrowser.
    destruct (deviceIndex devices !! b) as [dev|] eqn:Hdev; [|by eexists].
    apply deviceIndex_lookup in Hdev as [Hdev _].
    rewrite Forall_forall in Hbounded. specialize (Hbounded dev Hdev).
    unfold countProtocols. rewrite bool_decide_false; [by eexists|].
    intros [_ Hmax]. by apply Hbounded.
  - by eexists.
Qed.

(** ** The total weight *)

Lemma sumZ_cons x l : sumZ (x :: l) = x + sumZ l.
Proof. reflexivity. Qed.

Lemma sumZ_app l1 l2 : sumZ (l1 ++ l2) = sumZ l1 + sumZ l2.
Proof. unfold sumZ. induction l1 as [|x l1 IH]; simpl; lia. Qed.

Lemma sumZ_Permutation l1 l2 : l1 ≡ₚ l2 → sumZ l1 = sumZ l2.
Proof. unfold sumZ. induction 1; simpl; lia. Qed.

Lemma wrap64_add_r a b : wrap64 (a + wrap64 b) = wrap64 (a + b).
Proof. rewrite Z.add_comm, wrap64_add_l. f_equal. lia. Qed.

Lemma wrap64_add_congr a b c : wrap64 a = wrap64 b → wrap64 (a + c) = wrap64 (b + c).
Proof. intros H. by rewrite <- (wrap64_add_l a), H, wrap64_add_l. Qed.

Lemma forEach_total deviceKeys usage acc acc' a :
  forEach (tallyBrowser deviceKeys) usage acc = Returns acc' →
  t_total acc = wrap64 a →
  t_total acc' = wrap64 (a + sumZ usage.*2).
Proof.
  revert acc a. induction usage as [|[b c] usage IH]; intros acc a Hrun Hacc.
  { injection Hrun as <-. simpl. by rewrite Z.add_0_r. }
  rewrite forEach_cons in Hrun.
  destruct (tallyBrowser deviceKeys acc (b, c)) as [acc1| |] eqn:Hstep;
    simpl in Hrun; [|done..].
  rewrite fmap_cons. simpl. rewrite Z.add_assoc. apply (IH acc1); [done|].
  unfold tallyBrowser in Hstep.
  destruct (deviceKeys !! b) as [dev|].
  - destruct (countProtocols _ _ _ _); simpl in Hstep; [|done..].
    injection Hstep as <-. simpl. unfold add64. by rewrite Hacc, wrap64_add_l.
  - injection Hstep as <-. simpl. unfold add64. by rewrite Hacc, wrap64_add_l.
Qed.

Lemma browserMap_weight T browsers devices :
  wrap64 (sumZ (map_to_list (browserMap (joinBrowsers T browsers devices))).*2)
  = wrap64 (matchedWeight T browsers devices).
Proof.
  unfold joinBrowsers, matchedWeight.
  induction browsers as [|b browsers IH] using rev_ind.
  { simpl. by rewrite map_to_list_empty. }
  rewrite foldl_app, filter_app, fmap_app, sumZ_app. simpl.
  set (j := foldl _ _ browsers) in *. rewrite filter_cons, filter_nil.
  unfold joinBrowser.
  destruct (deviceKeySet devices !! browserKey T b) as [present|] eqn:Hkey.
  - rewrite decide_True.
    2:{ destruct (decide (browserKey T b ∈ profileKeys devices)) as [|Hnot]; [done|].
        apply deviceKeySet_lookup_None in Hnot. congruence. }
    simpl. rewrite Z.add_0_r.
    destruct (browserMap j !! browserKey T b) as [count|] eqn:Hcount.
    + rewrite <- insert_delete_eq.
      rewrite (sumZ_Permutation _ _ (fmap_Permutation snd _ _
                 (map_to_list_insert _ _ _ (lookup_delete_eq _ _)))).
      rewrite <- (wrap64_add_congr _ _ _ IH).
      rewrite <- (sumZ_Permutation _ _ (fmap_Permutation snd _ _
                    (map_to_list_delete _ _ _ Hcount))).
      rewrite !fmap_cons, !sumZ_cons. simpl. unfold add64.
      rewrite Z.add_comm, wrap64_add_r. f_equal. lia.
    + rewrite (sumZ_Permutation _ _ (fmap_Permutation snd _ _
                 (map_to_list_insert _ _ _ Hcount))).
      rewrite fmap_cons, sumZ_cons. simpl.
      rewrite <- (wrap64_add_congr _ _ _ IH). f_equal. lia.
  - rewrite decide_False.
    2:{ intros Hin. apply deviceKeys_lookup_None in Hkey as [_ Hnot]. by apply Hnot. }
    simpl. by rewrite Z.add_0_r.
Qed.

(** X3. [Total] is the weight of the matched usage records only, as an
    [int64]. *)
Theorem Total_is_matched_weight R T browsers devices stats start end_ :
  RuntimeOK R →
  analyseStats R T browsers devices = Returns (stats, start, end_) →
  TLSStats.Total stats = wrap64 (matchedWeight T browsers devices).
Proof.
  intros HR. unfold analyseStats, getTLSStats.
  destruct (forEach _ _ _) as [acc| |] eqn:Hrun; simpl; [|done..].
  destruct (getDateRange browsers). intros [= <- _ _]. simpl.
  rewrite (forEach_total _ _ _ _ 0 Hrun eq_refl). simpl.
  rewrite (sumZ_Permutation _ _ (fmap_Permutation snd _ _ (rangeBrowsers_perm R HR _))).
  apply browserMap_weight.
Qed.

(** X4. Every key [analyseStats] hands to [getTLSStats] is the key of a
    profile, so the branch of [getTLSStats] for a key without a device is
    not taken in the pipeline. *)
Theorem browserMap_keys_matched T browsers devices key count :
  browserMap (joinBrowsers T browsers devices) !! key = Some count →
  key ∈ profileKeys devices ∧ is_Some (deviceIndex devices !! key).
Proof.
  intros Hkey.
  assert (key ∈ profileKeys devices) as Hin.
  { revert count Hkey. unfold joinBrowsers.
    induction browsers as [|b browsers IH] using rev_ind; intros count; [done|].
    rewrite foldl_app. simpl. set (j := foldl _ _ browsers) in *.
    unfold joinBrowser.
    destruct (deviceKeySet devices !! browserKey T b) eqn:Hb; simpl; [|apply IH].
    destruct (decide (key = browserKey T b)) as [->|Hne].
    - intros _. destruct (decide (browserKey T b ∈ profileKeys devices)) as [|Hnot];
        [done|].
      apply deviceKeySet_lookup_None in Hnot. congruence.
    - destruct (browserMap j !! browserKey T b);
        rewrite lookup_insert_ne by done; apply IH. }
  split; [exact Hin|].
  unfold profileKeys, deviceIndex in *. clear Hkey.
  assert (∀ acc : gmap string Device,
            is_Some (acc !! key) ∨ key ∈ deviceKey <$> devices →
            is_Some (foldl (λ dk d, <[deviceKey d := d]> dk) acc devices !! key)) as H.
  { clear Hin. induction devices as [|d devices IH]; intros acc [Hacc|Hd]; simpl.
    - done.
    - by apply elem_of_nil in Hd.
    - apply IH. left. rewrite lookup_insert. case_decide; [by eexists|done].
    - apply IH. rewrite fmap_cons in Hd. apply elem_of_cons in Hd as [->|Hd].
      + left. rewrite lookup_insert_eq. by eexists.
      + by right. }
  apply H. by right.
Qed.

(** ** Instances of the theorems above *)

Lemma browserMap_keys_matched_witness :
  browserMap (joinBrowsers sampleTables [chrome90; lynx2] [chrome90Profile]) !! "Chrome:90"
  = Some 100
  ∧ "Chrome:90" ∈ profileKeys [chrome90Profile]
  ∧ is_Some (deviceIndex [chrome90Profile] !! "Chrome:90").
Proof.
  assert (browserMap (joinBrowsers sampleTables [chrome90; lynx2] [chrome90Profile])
            !! "Chrome:90" = Some 100) as Hkey by reflexivity.
  split; [exact Hkey|].
  exact (browserMap_keys_matched sampleTables [chrome90; lynx2] [chrome90Profile]
           "Chrome:90" 100 Hkey).
Defined.


Lemma getTLSStats_order_irrelevant_witness :
  RuntimeOK sampleRuntime ∧ RuntimeOK reversedRuntime
  ∧ getTLSStats sampleRuntime {[ "Chrome:90" := 100; "Firefox:73" := 50 ]}
                [chrome90Profile]
    = getTLSStats reversedRuntime {[ "Chrome:90" := 100; "Firefox:73" := 50 ]}
                  [chrome90Profile].
Proof.
  split; [exact sampleRuntime_ok|]. split; [exact reversedRuntime_ok|].
  exact (getTLSStats_order_irrelevant sampleRuntime reversedRuntime
           {[ "Chrome:90" := 100; "Firefox:73" := 50 ]} [chrome90Profile]
           sampleRuntime_ok reversedRuntime_ok).
Defined.

Lemma Total_is_matched_weight_witness :
  RuntimeOK sampleRuntime
  ∧ analyseStats sampleRuntime sampleTables [chrome90; lynx2; chrome90] [chrome90Profile]
    = Returns ({| TLSStats.Protocols := {[ 769 := 200; 770 := 200; 771 := 200; 772 := 200 ]};
                  TLSStats.Ciphers := {[ 4865 := 200 ]};
                  TLSStats.Curves := {[ 29 := 200 ]};
                  TLSStats.Total := 200;
                  TLSStats.devices := [chrome90Profile];
                  TLSStats.protocols := []; TLSStats.ciphers := [];
                  TLSStats.curves := [] |}, 1600000000, 1600000000)
  ∧ 200 = wrap64 (matchedWeight sampleTables [chrome90; lynx2; chrome90] [chrome90Profile]).
Proof.
  assert (analyseStats sampleRuntime sampleTables [chrome90; lynx2; chrome90]
            [chrome90Profile]
          = Returns ({| TLSStats.Protocols :=
                          {[ 769 := 200; 770 := 200; 771 := 200; 772 := 200 ]};
                        TLSStats.Ciphers := {[ 4865 := 200 ]};
                        TLSStats.Curves := {[ 29 := 200 ]};
                        TLSStats.Total := 200;
                        TLSStats.devices := [chrome90Profile];
                        TLSStats.protocols := []; TLSStats.ciphers := [];
                        TLSStats.curves := [] |}, 1600000000, 1600000000)) as Hrun.
  { vm_compute. reflexivity. }
  split; [exact sampleRuntime_ok|]. split; [exact Hrun|].
  exact (Total_is_matched_weight sampleRuntime sampleTables
           [chrome90; lynx2; chrome90] [chrome90Profile] _ _ _ sampleRuntime_ok Hrun).
Defined.

(** * Further properties of the code *)

(** ** [getDateRange] *)

Lemma getDateRange_fold browsers start end_ :
  let r := foldl (λ '(start, end_) br,
                    let date := Browser.Date br in
                    let start := if After start date then date else start in
                    let end_ := if Before end_ date then date else end_ in
                    (start, end_))
                 (start, end_) browsers in
  (∀ b, b ∈ browsers → r.1 ≤ Browser.Date b ≤ r.2)
  ∧ r.1 ≤ start ∧ end_ ≤ r.2
  ∧ (r.1 = start ∨ ∃ b, b ∈ browsers ∧ Browser.Date b = r.1)
  ∧ (r.2 = end_ ∨ ∃ b, b ∈ browsers ∧ Browser.Date b = r.2).
Proof.
  revert start end_. induction browsers as [|br browsers IH]; intros start end_.
  { simpl. split; [intros x Hx; by apply elem_of_nil in Hx|].
    repeat split; try lia; by left. }
  set (s1 := if After start (Browser.Date br) then Browser.Date br else start).
  set (e1 := if Before end_ (Browser.Date br) then Browser.Date br else end_).
  specialize (IH s1 e1).
  match goal with |- context [foldl ?f (start, end_) (br :: browsers)] =>
    change (foldl f (start, end_) (br :: browsers)) with (foldl f (s1, e1) browsers)
  end.
  cbv zeta in *. destruct IH as (Hall & Hs & He & Hmin & Hmax).
  assert (s1 ≤ start ∧ s1 ≤ Browser.Date br ∧ (s1 = start ∨ s1 = Browser.Date br))
    as (Hs1 & Hs2 & Hs3).
  { unfold s1, After. destruct (Z.ltb_spec (Browser.Date br) start); lia. }
  assert (end_ ≤ e1 ∧ Browser.Date br ≤ e1 ∧ (e1 = end_ ∨ e1 = Browser.Date br))
    as (He1 & He2 & He3).
  { unfold e1, Before. destruct (Z.ltb_spec end_ (Browser.Date br)); lia. }
  split; [|split; [lia|split; [lia|split]]].
  - intros b Hb. apply elem_of_cons in Hb as [->|Hb]; [lia|by apply Hall].
  - destruct Hmin as [Hmin|(b & Hb & Hd)].
    + destruct Hs3 as [Hs3|Hs3]; [left; lia|].
      right. exists br. split; [left|lia].
    + right. exists b. split; [by right|done].
  - destruct Hmax as [Hmax|(b & Hb & Hd)].
    + destruct He3 as [He3|He3]; [left; lia|].
      right. exists br. split; [left|lia].
    + right. exists b. split; [by right|done].
Qed.

(** X5. On a non-empty list of usage records [getDateRange] returns the
    earliest and the latest of their dates: every date lies between the two,
    and each is the date of some record. *)
Theorem getDateRange_earliest_latest browsers :
  browsers ≠ [] →
  (∀ b, b ∈ browsers →
     (getDateRange browsers).1 ≤ Browser.Date b ≤ (getDateRange browsers).2)
  ∧ (∃ b, b ∈ browsers ∧ Browser.Date b = (getDateRange browsers).1)
  ∧ (∃ b, b ∈ browsers ∧ Browser.Date b = (getDateRange browsers).2).
Proof.
  destruct browsers as [|first rest]; [done|]. intros _.
  unfold getDateRange.
  destruct (getDateRange_fold (first :: rest) (Browser.Date first) (Browser.Date first))
    as (Hall & _ & _ & Hmin & Hmax).
  split; [exact Hall|]. split.
  - destruct Hmin as [Hmin|Hmin]; [|exact Hmin].
    exists first. split; [left|exact (eq_sym Hmin)].
  - destruct Hmax as [Hmax|Hmax]; [|exact Hmax].
    exists first. split; [left|exact (eq_sym Hmax)].
Qed.

Lemma getDateRange_earliest_latest_witness :
  [chrome90; lynx2] ≠ []
  ∧ (∀ b, b ∈ [chrome90; lynx2] →
       (getDateRange [chrome90; lynx2]).1 ≤ Browser.Date b
       ≤ (getDateRange [chrome90; lynx2]).2).
Proof.
  assert ([chrome90; lynx2] ≠ []) as Hne by discriminate.
  split; [exact Hne|].
  exact (proj1 (getDateRange_earliest_latest [chrome90; lynx2] Hne)).
Defined.

(** ** The key normalizer, continued *)

(** X6. [dedupFamily] maps every family to a canonical one: applying it to
    its own result changes nothing. *)
Theorem dedupFamily_idempotent browser :
  dedupFamily (dedupFamily browser) = dedupFamily browser.
Proof.
  unfold dedupFamily at 2 3. unfold switch.
  repeat match goal with |- context [String.eqb browser ?c] =>
    destruct (String.eqb browser c) eqn:?; [reflexivity|]
  end.
  unfold dedupFamily, switch.
  repeat match goal with H : String.eqb browser _ = false |- _ => rewrite H; clear H end.
  reflexivity.
Qed.

Lemma splitColon_nonempty s : splitColon s ≠ [].
Proof.
  destruct s as [|c s]; simpl; [done|].
  destruct (Ascii.eqb c ":"); [done|]. by destruct (splitColon s).
Qed.

Lemma splitColon_sprintfColon a b :
  splitColon (sprintfColon a b) = splitColon a ++ splitColon b.
Proof.
  unfold sprintfColon. induction a as [|c a IH]; simpl; [done|].
  simpl in IH. rewrite IH.
  destruct (Ascii.eqb c ":"); [done|].
  destruct (splitColon a) eqn:Ha; [by apply splitColon_nonempty in Ha|done].
Qed.

Lemma splitColon_single s x : splitColon s = [x] → x = s.
Proof.
  revert x. induction s as [|c s IH]; intros x; simpl; [by intros [= <-]|].
  destruct (Ascii.eqb c ":").
  { intros [= _ Hs]. by apply splitColon_nonempty in Hs. }
  destruct (splitColon s) as [|piece pieces] eqn:Hs; [by apply splitColon_nonempty in Hs|].
  intros [= <- ->]. by rewrite (IH piece eq_refl).
Qed.

Lemma noColon_splitColon s : noColon s = true → splitColon s = [s].
Proof.
  induction s as [|c s IH]; simpl; [done|].
  destruct (Ascii.eqb c ":"); simpl; [done|]. intros Hs. by rewrite (IH Hs).
Qed.

Lemma collapseVersion_versionTable T browser :
  collapseVersion T browser
  = match splitColon browser with
    | [fam; ver] =>
        match versionTable T fam with
        | Some vers => collapseWith vers fam ver browser
        | None => browser
        end
    | _ => browser
    end.
Proof.
  unfold collapseVersion, versionTable.
  destruct (splitColon browser) as [|fam [|ver [|]]]; try done.
  unfold switch.
  repeat match goal with |- context [String.eqb fam ?c] =>
    destruct (String.eqb fam c); [done|]
  end.
  done.
Qed.

Lemma versionTable_noColon T fam vers :
  versionTable T fam = Some vers → noColon fam = true.
Proof.
  unfold versionTable, switch.
  repeat match goal with |- context [String.eqb fam ?c] =>
    destruct (String.eqb fam c) eqn:Heq;
      [apply String.eqb_eq in Heq; by subst|clear Heq]
  end.
  done.
Qed.

(** X7. A usage record gets the key of the profile named by its canonical
    family and its raw major version, whenever the version table of that
    family (if it has one) holds no entry for the version.  This holds for
    any strings, colons included. *)
Theorem browserKey_matches_profile T (b : Browser) (dev : Device) :
  Device.Name dev = dedupFamily (Browser.BrowserFamily b) →
  Device.Version dev = Browser.BrowserMajorVersion b →
  (∀ vers, versionTable T (Device.Name dev) = Some vers →
           vers !! Device.Version dev = None) →
  browserKey T b = deviceKey dev.
Proof.
  intros Hname Hversion Htable. unfold browserKey, deviceKey.
  rewrite <- Hname, <- Hversion.
  rewrite collapseVersion_versionTable, splitColon_sprintfColon.
  pose proof (splitColon_nonempty (Device.Name dev)) as Hn.
  pose proof (splitColon_nonempty (Device.Version dev)) as Hv.
  destruct (splitColon (Device.Name dev)) as [|fam [|fam2 fams]] eqn:Hfam; [done| |].
  - destruct (splitColon (Device.Version dev)) as [|ver [|ver2 vers]] eqn:Hver;
      [done| |done].
    apply splitColon_single in Hfam as ->. apply splitColon_single in Hver as ->.
    simpl. destruct (versionTable T (Device.Name dev)) as [vers|] eqn:Hvers; [|done].
    unfold collapseWith. by rewrite (Htable vers eq_refl).
  - simpl. destruct (splitColon (Device.Version dev)); [done|].
    by destruct fams.
Qed.

Lemma browserKey_matches_profile_witness :
  browserKey sampleTables
    {| Browser.Date := 0; Browser.BrowserFamily := "Chrome Mobile";
       Browser.BrowserMajorVersion := "90"; Browser.OSFamily := "Android";
       Browser.OSMajorVersion := "11"; Browser.Count := 3 |}
  = deviceKey chrome90Profile.
Proof.
  apply browserKey_matches_profile; [reflexivity|reflexivity|].
  intros vers [= <-]. reflexivity.
Defined.

(** X8. When the version table of the record's canonical family maps its
    major version (a string without a colon) to [nv], the key is the
    canonical family and [nv]. *)
Theorem browserKey_collapses_version T (b : Browser) vers nv :
  versionTable T (dedupFamily (Browser.BrowserFamily b)) = Some vers →
  vers !! Browser.BrowserMajorVersion b = Some nv →
  noColon (Browser.BrowserMajorVersion b) = true →
  browserKey T b = sprintfColon (dedupFamily (Browser.BrowserFamily b)) nv.
Proof.
  intros Hvers Hnv Hver. unfold browserKey.
  rewrite collapseVersion_versionTable, splitColon_sprintfColon.
  rewrite (noColon_splitColon _ (versionTable_noColon T _ _ Hvers)).
  rewrite (noColon_splitColon _ Hver). simpl.
  rewrite Hvers. unfold collapseWith. by rewrite Hnv.
Qed.

Lemma browserKey_collapses_version_witness :
  browserKey sampleTables
    {| Browser.Date := 0; Browser.BrowserFamily := "Chromium";
       Browser.BrowserMajorVersion := "79"; Browser.OSFamily := "Linux";
       Browser.OSMajorVersion := "5"; Browser.Count := 3 |}
  = "Chrome:80".
Proof.
  exact (browserKey_collapses_version sampleTables
           {| Browser.Date := 0; Browser.BrowserFamily := "Chromium";
              Browser.BrowserMajorVersion := "79"; Browser.OSFamily := "Linux";
              Browser.OSMajorVersion := "5"; Browser.Count := 3 |}
           (chromeVers sampleTables) "80" eq_refl eq_refl eq_refl).
Defined.

(** ** The device index *)

(** X9. When several profiles have the same key, the index used by
    [getTLSStats] holds the last of them. *)
Theorem deviceIndex_last_wins devices key :
  deviceIndex devices !! key = last (filter (λ d, deviceKey d = key) devices).
Proof.
  unfold deviceIndex.
  induction devices as [|d devices IH] using rev_ind; [done|].
  rewrite foldl_app, filter_app. simpl. rewrite filter_cons, filter_nil.
  destruct (decide (deviceKey d = key)) as [<-|Hne].
  - by rewrite lookup_insert_eq, last_snoc.
  - by rewrite lookup_insert_ne, app_nil_r.
Qed.

(** ** The counts of one usage key *)

Lemma addCounts_lookup_notin ids counts c id :
  id ∉ ids → foldl (λ m cid, addCount m cid c) counts ids !! id = counts !! id.
Proof.
  revert counts. induction ids as [|cid ids IH]; intros counts Hid; simpl; [done|].
  apply not_elem_of_cons in Hid as [Hne Hid].
  by rewrite IH, addCount_lookup_ne.
Qed.

Lemma addCounts_lookup_in ids counts c id :
  NoDup ids → id ∈ ids →
  foldl (λ m cid, addCount m cid c) counts ids !! id
  = Some (match counts !! id with Some count => add64 count c | None => c end).
Proof.
  revert counts. induction ids as [|cid ids IH]; intros counts Hnd Hid; simpl.
  { by apply elem_of_nil in Hid. }
  apply NoDup_cons in Hnd as [Hcid Hnd].
  apply elem_of_cons in Hid as [->|Hid].
  - by rewrite addCounts_lookup_notin, addCount_lookup.
  - rewrite IH, addCount_lookup_ne by (done || set_solver). done.
Qed.

Lemma addCounts_is_Some_inv ids counts c id :
  is_Some (foldl (λ m cid, addCount m cid c) counts ids !! id) →
  id ∈ ids ∨ is_Some (counts !! id).
Proof.
  revert counts. induction ids as [|cid ids IH]; intros counts Hid; simpl in *.
  { by right. }
  destruct (IH _ Hid) as [Hin|Hsome]; [left; by right|].
  destruct (decide (id = cid)) as [->|Hne]; [left; left|].
  right. by rewrite addCount_lookup_ne in Hsome.
Qed.

Lemma countProtocols_returns lowestProtocol highest c protocols :
  highest ≠ max_int64 →
  countProtocols lowestProtocol highest c protocols
  = Returns (foldl (λ m p, addCount m p c) protocols
                   (seqZ lowestProtocol (highest - lowestProtocol + 1))).
Proof.
  intros Hmax. unfold countProtocols. rewrite bool_decide_false; [done|].
  by intros [_ ?].
Qed.

Lemma countProtocols_inv lowestProtocol highest c protocols protocols' :
  countProtocols lowestProtocol highest c protocols = Returns protocols' →
  protocols' = foldl (λ m p, addCount m p c) protocols
                     (seqZ lowestProtocol (highest - lowestProtocol + 1)).
Proof.
  unfold countProtocols. case_bool_decide; [done|]. by intros [= <-].
Qed.

(** X10. In the loop of [getTLSStats], a usage key with weight [c] whose
    profile has a highest protocol below the largest [int] adds [c] to the
    count of every protocol from the effective lowest (the larger of
    [LowestProtocol] and 768) to [HighestProtocol], both included, and leaves
    every other protocol count as it is; a run on that key alone returns the
    count [c] for exactly those protocols. *)
Theorem protocol_range_counts R deviceKeys acc b c dev :
  RuntimeOK R →
  deviceKeys !! b = Some dev →
  boundedProtocols dev →
  (∃ acc', tallyBrowser deviceKeys acc (b, c) = Returns acc'
     ∧ ∀ p, t_protocols acc' !! p
            = if bool_decide (effectiveLowest dev ≤ p ≤ Device.HighestProtocol dev)
              then Some (match t_protocols acc !! p with
                         | Some count => add64 count c
                         | None => c
                         end)
              else t_protocols acc !! p)
  ∧ (∀ devices, deviceIndex devices = deviceKeys →
       ∃ stats, getTLSStats R {[ b := c ]} devices = Returns stats
         ∧ ∀ p, TLSStats.Protocols stats !! p
                = if bool_decide (effectiveLowest dev ≤ p ≤ Device.HighestProtocol dev)
                  then Some c else None).
Proof.
  intros HR Hdev Hbounded.
  assert (∀ acc0, ∃ acc', tallyBrowser deviceKeys acc0 (b, c) = Returns acc'
     ∧ ∀ p, t_protocols acc' !! p
            = if bool_decide (effectiveLowest dev ≤ p ≤ Device.HighestProtocol dev)
              then Some (match t_protocols acc0 !! p with
                         | Some count => add64 count c
                         | None => c
                         end)
              else t_protocols acc0 !! p) as Hstep.
  { intros acc0. unfold tallyBrowser. rewrite Hdev.
    fold (effectiveLowest dev). rewrite countProtocols_returns by done. simpl.
    eexists. split; [reflexivity|]. simpl. intros p.
    case_bool_decide as Hp.
    - apply addCounts_lookup_in; [apply NoDup_seqZ|]. apply elem_of_seqZ. lia.
    - apply addCounts_lookup_notin. rewrite elem_of_seqZ. lia. }
  split; [apply Hstep|].
  intros devices Hindex. unfold getTLSStats.
  rewrite (range_singleton R _ _ HR), Hindex. unfold forEach.
  destruct (Hstep {| t_protocols := ∅; t_ciphers := ∅; t_curves := ∅; t_total := 0 |})
    as (acc' & -> & Hp).
  simpl. eexists. split; [reflexivity|]. simpl. intros p.
  rewrite Hp. simpl. by rewrite lookup_empty.
Qed.

Lemma protocol_range_counts_witness :
  deviceIndex [chrome90Profile] !! "Chrome:90" = Some chrome90Profile
  ∧ boundedProtocols chrome90Profile
  ∧ ∃ stats,
      getTLSStats sampleRuntime {[ "Chrome:90" := 100 ]} [chrome90Profile] = Returns stats
      ∧ ∀ p, TLSStats.Protocols stats !! p
             = if bool_decide (effectiveLowest chrome90Profile ≤ p
                               ≤ Device.HighestProtocol chrome90Profile)
               then Some 100 else None.
Proof.
  assert (deviceIndex [chrome90Profile] !! "Chrome:90" = Some chrome90Profile)
    as Hdev by reflexivity.
  assert (boundedProtocols chrome90Profile) as Hbounded by discriminate.
  split; [exact Hdev|]. split; [exact Hbounded|].
  exact (proj2 (protocol_range_counts sampleRuntime (deviceIndex [chrome90Profile])
                  {| t_protocols := ∅; t_ciphers := ∅; t_curves := ∅; t_total := 0 |}
                  "Chrome:90" 100 chrome90Profile sampleRuntime_ok Hdev Hbounded)
               [chrome90Profile] eq_refl).
Defined.

(** ** Invariants of the tally *)

Lemma forEach_invariant {A S} (Inv : S → Prop) (body : S → A → outcome S) xs acc result :
  (∀ acc x acc', x ∈ xs → Inv acc → body acc x = Returns acc' → Inv acc') →
  Inv acc → forEach body xs acc = Returns result → Inv result.
Proof.
  revert acc. induction xs as [|x xs IH]; intros acc Hbody Hacc Hrun.
  { by injection Hrun as <-. }
  rewrite forEach_cons in Hrun.
  destruct (body acc x) as [acc1| |] eqn:Hstep; simpl in Hrun; [|done..].
  apply (IH acc1); [|by eapply Hbody; [left|..]|done].
  intros acc0 y acc0' Hy. apply Hbody. by right.
Qed.

Lemma effectiveLowest_floor dev :
  768 ≤ effectiveLowest dev ∧ Device.LowestProtocol dev ≤ effectiveLowest dev.
Proof.
  unfold effectiveLowest. destruct (Z.ltb_spec 768 (Device.LowestProtocol dev)); lia.
Qed.

Lemma fromProfiles_empty devices :
  fromProfiles devices {| t_protocols := ∅; t_ciphers := ∅; t_curves := ∅; t_total := 0 |}.
Proof.
  unfold fromProfiles. simpl.
  split; [|split]; intros ? [? Hx]; by rewrite lookup_empty in Hx.
Qed.

Lemma tally_fromProfiles devices usage acc acc' :
  fromProfiles devices acc →
  forEach (tallyBrowser (deviceIndex devices)) usage acc = Returns acc' →
  fromProfiles devices acc'.
Proof.
  intros Hacc. apply (forEach_invariant (fromProfiles devices)); [|done].
  clear. intros acc0 [b c] acc' _ (Hp & Hc & Hu) Hstep. unfold tallyBrowser in Hstep.
  destruct (deviceIndex devices !! b) as [dev|] eqn:Hdev.
  - apply deviceIndex_lookup in Hdev as [Hdev _].
    fold (effectiveLowest dev) in Hstep.
    destruct (countProtocols _ _ _ _) as [protocols| |] eqn:Hcount;
      simpl in Hstep; [|done..].
    apply countProtocols_inv in Hcount as ->. injection Hstep as <-.
    unfold fromProfiles. simpl. split; [|split].
    + intros p Hin. apply addCounts_is_Some_inv in Hin as [Hin|Hold]; [|by apply Hp].
      apply elem_of_seqZ in Hin. pose proof (effectiveLowest_floor dev).
      split; [lia|]. exists dev. split; [done|lia].
    + intros id Hid. apply addCounts_is_Some_inv in Hid as [Hin|Hold]; [|by apply Hc].
      by exists dev.
    + intros id Hid. apply addCounts_is_Some_inv in Hid as [Hin|Hold]; [|by apply Hu].
      by exists dev.
  - injection Hstep as <-. unfold fromProfiles. simpl. auto.
Qed.

(** X11. Whatever the usage map, [getTLSStats] counts nothing that no
    profile declares: every protocol in the tally is 768 or above and lies
    within the protocol range of some device, and every cipher suite and
    curve in the tally is listed by some device. *)
Theorem tally_entries_come_from_profiles R browsers devices stats :
  getTLSStats R browsers devices = Returns stats →
  (∀ p, is_Some (TLSStats.Protocols stats !! p) →
     768 ≤ p ∧ ∃ dev, dev ∈ devices
       ∧ Device.LowestProtocol dev ≤ p ≤ Device.HighestProtocol dev)
  ∧ (∀ id, is_Some (TLSStats.Ciphers stats !! id) →
       ∃ dev, dev ∈ devices ∧ id ∈ Device.SuiteIds dev)
  ∧ (∀ id, is_Some (TLSStats.Curves stats !! id) →
       ∃ dev, dev ∈ devices ∧ id ∈ Device.EllipticCurves dev).
Proof.
  unfold getTLSStats.
  destruct (forEach _ _ _) as [acc| |] eqn:Hrun; simpl; [|done..].
  intros [= <-]. simpl.
  exact (tally_fromProfiles devices _ _ acc (fromProfiles_empty devices) Hrun).
Qed.

Lemma tally_entries_come_from_profiles_witness :
  getTLSStats sampleRuntime {[ "Chrome:90" := 100 ]} [chrome90Profile] = Returns scenarioA
  ∧ ∀ p, is_Some (TLSStats.Protocols scenarioA !! p) →
      768 ≤ p ∧ ∃ dev, dev ∈ [chrome90Profile]
        ∧ Device.LowestProtocol dev ≤ p ≤ Device.HighestProtocol dev.
Proof.
  assert (getTLSStats sampleRuntime {[ "Chrome:90" := 100 ]} [chrome90Profile]
          = Returns scenarioA) as Hrun by (vm_compute; reflexivity).
  split; [exact Hrun|].
  exact (proj1 (tally_entries_come_from_profiles sampleRuntime
                  {[ "Chrome:90" := 100 ]} [chrome90Profile] scenarioA Hrun)).
Defined.

Lemma wrap64_id z : isInt64 z → wrap64 z = z.
Proof.
  unfold isInt64, wrap64, min_int64, max_int64. intros Hz.
  rewrite Z.mod_small; lia.
Qed.

Lemma addCounts_bounded ids counts c total :
  NoDup ids → 0 ≤ c → 0 ≤ total → total + c ≤ max_int64 →
  (∀ id x, counts !! id = Some x → 0 ≤ x ≤ total) →
  ∀ id x, foldl (λ m cid, addCount m cid c) counts ids !! id = Some x →
          0 ≤ x ≤ total + c.
Proof.
  intros Hnd Hc Htotal Hmax Hcounts id x.
  destruct (decide (id ∈ ids)) as [Hin|Hnot].
  - rewrite addCounts_lookup_in by done.
    destruct (counts !! id) as [count|] eqn:Hcount; intros [= <-]; [|lia].
    specialize (Hcounts id count Hcount). unfold add64.
    rewrite wrap64_id; [lia|]. unfold isInt64, min_int64. lia.
  - rewrite addCounts_lookup_notin by done. intros Hx.
    specialize (Hcounts id x Hx). lia.
Qed.

Lemma sumZ_weights_nonneg (usage : list (string * Z)) :
  Forall (λ bc, 0 ≤ bc.2) usage → 0 ≤ sumZ usage.*2.
Proof.
  induction usage as [|[b c] usage IH]; intros Hpos; [done|].
  apply Forall_cons in Hpos as [Hc Hpos]. simpl in Hc.
  rewrite fmap_cons, sumZ_cons. specialize (IH Hpos). simpl. lia.
Qed.

Lemma tally_within_total devices usage acc acc' :
  Forall (λ bc, 0 ≤ bc.2) usage →
  t_total acc + sumZ usage.*2 ≤ max_int64 →
  countsWithinTotal devices acc →
  forEach (tallyBrowser (deviceIndex devices)) usage acc = Returns acc' →
  countsWithinTotal devices acc'.
Proof.
  revert acc. induction usage as [|[b c] usage IH]; intros acc Hpos Hsum Hacc Hrun.
  { by injection Hrun as <-. }
  rewrite forEach_cons in Hrun.
  destruct (tallyBrowser _ acc (b, c)) as [acc1| |] eqn:Hstep; simpl in Hrun; [|done..].
  apply Forall_cons in Hpos as [Hc Hpos]. simpl in Hc.
  rewrite fmap_cons, sumZ_cons in Hsum. simpl in Hsum.
  pose proof (sumZ_weights_nonneg usage Hpos) as Hrest.
  destruct Hacc as (Ht & Hp & Hci & Hcu).
  assert (add64 (t_total acc) c = t_total acc + c) as Hadd.
  { unfold add64. apply wrap64_id. unfold isInt64, min_int64. lia. }
  apply (IH acc1); [done| |clear IH|done]; unfold tallyBrowser in Hstep;
    destruct (deviceIndex devices !! b) as [dev|] eqn:Hdev.
  - destruct (countProtocols _ _ _ _); simpl in Hstep; [|done..].
    injection Hstep as <-. simpl. rewrite Hadd. lia.
  - injection Hstep as <-. simpl. rewrite Hadd. lia.
  - apply deviceIndex_lookup in Hdev as [Hdev _].
    destruct (countProtocols _ _ _ _) as [protocols| |] eqn:Hcount;
      simpl in Hstep; [|done..].
    apply countProtocols_inv in Hcount as ->. injection Hstep as <-.
    unfold countsWithinTotal. simpl. rewrite Hadd.
    split; [lia|]. split; [|split].
    + apply addCounts_bounded; try done; try lia. apply NoDup_seqZ.
    + intros Hnd. apply addCounts_bounded; try lia; [|by apply Hci].
      rewrite Forall_forall in Hnd. by apply Hnd.
    + intros Hnd. apply addCounts_bounded; try lia; [|by apply Hcu].
      rewrite Forall_forall in Hnd. by apply Hnd.
  - injection Hstep as <-. unfold countsWithinTotal. simpl. rewrite Hadd.
    split; [lia|]. split; [|split].
    + intros p x Hx. specialize (Hp p x Hx). lia.
    + intros Hnd id x Hx. specialize (Hci Hnd id x Hx). lia.
    + intros Hnd id x Hx. specialize (Hcu Hnd id x Hx). lia.
Qed.

(** X12. When the weights of the usage map are not negative and their sum
    fits an [int64], no protocol count of the tally exceeds [Total], so no
    protocol share exceeds the whole; the same holds for cipher suites and
    for curves when no profile lists an identifier twice. *)
Theorem counts_at_most_total R browsers devices stats :
  RuntimeOK R →
  map_Forall (λ _ c, 0 ≤ c) browsers →
  sumZ (map_to_list browsers).*2 ≤ max_int64 →
  getTLSStats R browsers devices = Returns stats →
  (∀ p x, TLSStats.Protocols stats !! p = Some x → 0 ≤ x ≤ TLSStats.Total stats)
  ∧ (Forall (λ d, NoDup (Device.SuiteIds d)) devices →
     ∀ id x, TLSStats.Ciphers stats !! id = Some x → 0 ≤ x ≤ TLSStats.Total stats)
  ∧ (Forall (λ d, NoDup (Device.EllipticCurves d)) devices →
     ∀ id x, TLSStats.Curves stats !! id = Some x → 0 ≤ x ≤ TLSStats.Total stats).
Proof.
  intros HR Hpos Hsum. unfold getTLSStats.
  destruct (forEach _ _ _) as [acc| |] eqn:Hrun; simpl; [|done..].
  intros [= <-]. simpl.
  apply (tally_within_total devices) in Hrun as (_ & Hp & Hc & Hu); [done|..].
  - rewrite (rangeBrowsers_perm R HR). apply Forall_forall. intros [b c] Hbc.
    apply elem_of_map_to_list in Hbc. by apply (Hpos b c).
  - simpl.
    by rewrite (sumZ_Permutation _ _
                  (fmap_Permutation snd _ _ (rangeBrowsers_perm R HR browsers))).
  - repeat split; try done; intros; by rewrite lookup_empty in *.
Qed.

Lemma counts_at_most_total_witness :
  getTLSStats sampleRuntime {[ "Chrome:90" := 100 ]} [chrome90Profile] = Returns scenarioA
  ∧ ∀ p x, TLSStats.Protocols scenarioA !! p = Some x →
           0 ≤ x ≤ TLSStats.Total scenarioA.
Proof.
  assert (map_Forall (λ (_ : string) c, 0 ≤ c) ({[ "Chrome:90" := 100 ]} : gmap string Z))
    as Hpos.
  { intros key c Hc. apply lookup_singleton_Some in Hc as [_ <-]. lia. }
  assert (sumZ (map_to_list ({[ "Chrome:90" := 100 ]} : gmap string Z)).*2 ≤ max_int64)
    as Hsum.
  { rewrite map_to_list_singleton. simpl. unfold max_int64. lia. }
  assert (getTLSStats sampleRuntime {[ "Chrome:90" := 100 ]} [chrome90Profile]
          = Returns scenarioA) as Hrun by (vm_compute; reflexivity).
  split; [exact Hrun|].
  exact (proj1 (counts_at_most_total sampleRuntime {[ "Chrome:90" := 100 ]}
                  [chrome90Profile] scenarioA sampleRuntime_ok Hpos Hsum Hrun)).
Defined.

(** ** The join, continued *)

Lemma deviceKeySet_lookup_Some devices key :
  key ∈ profileKeys devices → is_Some (deviceKeySet devices !! key).
Proof.
  intros Hin. destruct (deviceKeySet devices !! key) eqn:Hkey; [by eexists|].
  apply deviceKeys_lookup_None in Hkey as [_ Hnot]. by destruct Hnot.
Qed.

Lemma deviceKeys_lookup_None_inv devices key present :
  deviceKeySet devices !! key = Some present → key ∈ profileKeys devices.
Proof.
  intros Hkey. destruct (decide (key ∈ profileKeys devices)) as [|Hnot]; [done|].
  apply deviceKeySet_lookup_None in Hnot. congruence.
Qed.

(** X13. For a key that matches a profile, the per-key usage map holds the
    sum (as an [int64]) of the weights of all usage records that normalize
    to the key, and no entry when there is no such record. *)
Theorem matched_weights_are_combined T browsers devices key :
  key ∈ profileKeys devices →
  Forall (λ b, isInt64 (Browser.Count b)) browsers →
  browserMap (joinBrowsers T browsers devices) !! key
  = (if decide (filter (λ b, browserKey T b = key) browsers = []) then None
     else Some (wrap64 (sumZ (Browser.Count
                                <$> filter (λ b, browserKey T b = key) browsers)))).
Proof.
  intros Hkey Hcounts. apply deviceKeySet_lookup_Some in Hkey as [present Hkey].
  unfold joinBrowsers.
  induction browsers as [|b browsers IH] using rev_ind; [done|].
  apply Forall_app in Hcounts as [Hcounts Hb]. rewrite Forall_singleton in Hb.
  specialize (IH Hcounts).
  rewrite foldl_app, filter_app. simpl.
  set (j := foldl (joinBrowser T (deviceKeySet devices)) _ browsers) in *.
  rewrite filter_cons, filter_nil. unfold joinBrowser.
  destruct (decide (browserKey T b = key)) as [->|Hne].
  - rewrite Hkey. simpl. rewrite IH.
    destruct (decide (filter (λ b0, browserKey T b0 = key) browsers ++ [b] = []))
      as [Habs|_]; [by apply app_eq_nil in Habs as [_ ?]|].
    rewrite fmap_app, sumZ_app.
    change (sumZ (Browser.Count <$> [b])) with (Browser.Count b + 0).
    rewrite Z.add_0_r.
    destruct (decide (filter (λ b0, browserKey T b0 = key) browsers = []))
      as [Hnone|Hsome]; rewrite lookup_insert_eq.
    + rewrite Hnone. change (sumZ (Browser.Count <$> [])) with 0.
      by rewrite Z.add_0_l, wrap64_id.
    + unfold add64. by rewrite wrap64_add_l.
  - rewrite app_nil_r.
    destruct (deviceKeySet devices !! browserKey T b); simpl; [|done].
    destruct (browserMap j !! browserKey T b); by rewrite lookup_insert_ne.
Qed.

Lemma matched_weights_are_combined_witness :
  ("Chrome:90" ∈ profileKeys [chrome90Profile])
  ∧ browserMap (joinBrowsers sampleTables [chrome90; lynx2; chrome90] [chrome90Profile])
      !! "Chrome:90"
    = Some 200.
Proof.
  assert ("Chrome:90" ∈ profileKeys [chrome90Profile]) as Hkey by left.
  assert (Forall (λ b, isInt64 (Browser.Count b)) [chrome90; lynx2; chrome90]) as Hcounts.
  { repeat constructor; discriminate. }
  split; [exact Hkey|].
  exact (matched_weights_are_combined sampleTables [chrome90; lynx2; chrome90]
           [chrome90Profile] "Chrome:90" Hkey Hcounts).
Defined.

(** X14. [found] is the number of usage records whose key matches a
    profile and [notfound] the number of the others: together they count
    every record once. *)
Theorem found_and_notfound_count_records T browsers devices :
  found (joinBrowsers T browsers devices)
  = Z.of_nat (length (filter (λ b, browserKey T b ∈ profileKeys devices) browsers))
  ∧ notfound (joinBrowsers T browsers devices)
    = Z.of_nat (length (filter (λ b, browserKey T b ∉ profileKeys devices) browsers))
  ∧ found (joinBrowsers T browsers devices) + notfound (joinBrowsers T browsers devices)
    = Z.of_nat (length browsers).
Proof.
  assert (found (joinBrowsers T browsers devices)
          = Z.of_nat (length (filter (λ b, browserKey T b ∈ profileKeys devices) browsers))
          ∧ notfound (joinBrowsers T browsers devices)
            = Z.of_nat (length (filter (λ b, browserKey T b ∉ profileKeys devices)
                                       browsers))) as [Hf Hn].
  { unfold joinBrowsers.
    induction browsers as [|b browsers [IHf IHn]] using rev_ind; [done|].
    rewrite foldl_app, !filter_app, !length_app, !Nat2Z.inj_add. simpl.
    set (j := foldl (joinBrowser T (deviceKeySet devices)) _ browsers) in *.
    rewrite !filter_cons, !filter_nil. unfold joinBrowser.
    destruct (deviceKeySet devices !! browserKey T b) eqn:Hb; simpl.
    - apply deviceKeys_lookup_None_inv in Hb.
      repeat case_decide; simpl; try tauto; lia.
    - apply deviceKeys_lookup_None in Hb as [_ Hb].
      repeat case_decide; simpl; try tauto; lia. }
  split; [exact Hf|]. split; [exact Hn|].
  rewrite Hf, Hn, <- Nat2Z.inj_add. f_equal.
  clear Hf Hn. induction browsers as [|b browsers IH]; [done|].
  rewrite !filter_cons. repeat case_decide; simpl; try tauto; lia.
Qed.

(** ** The names and the lookup form of the report *)

Lemma outcome_bind_Returns {A B} (a : A) (f : A → outcome B) :
  (Returns a ≫= f) = f a.
Proof. reflexivity. Qed.

Lemma cipherMapsDevice_names (names : list string) ids offset (out : gmap Z string) :
  (length ids ≤ length (drop offset names))%nat →
  forEach (λ (out : gmap Z string) '(ind, id),
             match out !! id with
             | Some _ => Returns out
             | None =>
                 match names !! ind with
                 | Some name => Returns (<[id := name]> out)
                 | None => Panics
                 end
             end)
          (imap (λ (ind : nat) (id : Z), ((offset + ind)%nat, id)) ids) out
  = Returns (out ∪ list_to_map (zip ids (drop offset names))).
Proof.
  revert offset out. induction ids as [|id ids IH]; intros offset out Hlen.
  { simpl. by rewrite (right_id_L ∅ (∪)). }
  rewrite imap_cons, forEach_cons. rewrite length_cons in Hlen.
  destruct (lookup_lt_is_Some_2 names offset) as [name Hname].
  { rewrite length_drop in Hlen. lia. }
  rewrite (drop_S _ _ _ Hname) in *. rewrite length_cons in Hlen.
  rewrite (imap_ext _ (λ (ind : nat) (id0 : Z), ((S offset + ind)%nat, id0)))
    by (intros; simpl; f_equal; lia).
  cbv beta iota. rewrite Nat.add_0_r, Hname.
  change (zip (id :: ids) (name :: drop (S offset) names))
    with ((id, name) :: zip ids (drop (S offset) names)).
  rewrite list_to_map_cons.
  destruct (out !! id) as [old|] eqn:Hout;
    rewrite outcome_bind_Returns, IH by lia; f_equal.
  - apply map_eq. intros i.
    rewrite !lookup_union. destruct (decide (i = id)) as [->|Hne].
    + rewrite Hout, lookup_insert_eq. by destruct (list_to_map _ !! id).
    + by rewrite lookup_insert_ne.
  - by rewrite <- insert_union_l, insert_union_r.
Qed.

Lemma cipherMapsDevice_aligned out dev :
  namesAligned dev →
  cipherMapsDevice out dev
  = Returns (out ∪ list_to_map (zip (Device.SuiteIds dev) (Device.SuiteNames dev))).
Proof.
  intros Hlen. unfold cipherMapsDevice.
  assert (length (Device.SuiteIds dev) ≤ length (drop 0 (Device.SuiteNames dev)))%nat
    as Hdrop.
  { rewrite drop_0. unfold namesAligned in Hlen. lia. }
  exact (cipherMapsDevice_names (Device.SuiteNames dev) (Device.SuiteIds dev) 0 out Hdrop).
Qed.

Lemma cipherMaps_suitePairs devices :
  Forall namesAligned devices →
  cipherMaps devices = Returns (list_to_map (suitePairs devices)).
Proof.
  intros Hall. unfold cipherMaps.
  assert (∀ out, forEach cipherMapsDevice devices out
                 = Returns (out ∪ list_to_map (suitePairs devices))) as H.
  { induction Hall as [|dev devices Hdev _ IH]; intros out.
    - simpl. by rewrite (right_id_L ∅ (∪)).
    - rewrite forEach_cons, (cipherMapsDevice_aligned _ _ Hdev).
      rewrite outcome_bind_Returns, IH. unfold suitePairs. rewrite bind_cons, list_to_map_app.
      by rewrite (assoc_L (∪)). }
  by rewrite H, (left_id_L ∅ (∪)).
Qed.

Lemma list_to_map_first {V} (pairs front back : list (Z * V)) id x :
  pairs = front ++ (id, x) :: back → id ∉ front.*1 →
  (list_to_map pairs : gmap Z V) !! id = Some x.
Proof.
  intros -> Hfront. rewrite list_to_map_app, lookup_union_r.
  - by rewrite list_to_map_cons, lookup_insert_eq.
  - by apply not_elem_of_list_to_map_1.
Qed.

(** X15. With aligned name and id lists, [cipherMaps] gives every suite id
    of the devices a name, the one that stands beside the first occurrence
    of the id (devices in order, ids in order), and holds no other id. *)
Theorem cipherMaps_first_name_wins devices :
  Forall namesAligned devices →
  ∃ out, cipherMaps devices = Returns out
    ∧ (∀ id, id ∉ (suitePairs devices).*1 → out !! id = None)
    ∧ (∀ front id name back,
         suitePairs devices = front ++ (id, name) :: back → id ∉ front.*1 →
         out !! id = Some name).
Proof.
  intros Hall. exists (list_to_map (suitePairs devices)).
  split; [by apply cipherMaps_suitePairs|]. split.
  - intros id Hid. by apply not_elem_of_list_to_map_1.
  - intros front id name back Hpairs Hfront. by eapply list_to_map_first.
Qed.

Lemma cipherMaps_first_name_wins_witness :
  Forall namesAligned [emptyRangeProfile; chrome90Profile]
  ∧ ∃ out, cipherMaps [emptyRangeProfile; chrome90Profile] = Returns out
      ∧ out !! 4865 = Some "a".
Proof.
  assert (Forall namesAligned [emptyRangeProfile; chrome90Profile]) as Hall.
  { repeat constructor. }
  split; [exact Hall|].
  destruct (cipherMaps_first_name_wins [emptyRangeProfile; chrome90Profile] Hall)
    as (out & Hout & _ & Hfirst).
  exists out. split; [exact Hout|].
  exact (Hfirst [] 4865 "a" [(4866, "b"); (4865, "TLS_AES_128_GCM_SHA256")]
           eq_refl (not_elem_of_nil _)).
Defined.

Lemma suitePairs_ids devices id :
  Forall namesAligned devices →
  (∃ dev, dev ∈ devices ∧ id ∈ Device.SuiteIds dev) →
  id ∈ (suitePairs devices).*1.
Proof.
  intros Hall (dev & Hdev & Hid). unfold suitePairs.
  rewrite Forall_forall in Hall. specialize (Hall dev Hdev).
  apply list_elem_of_fmap.
  apply list_elem_of_lookup in Hid as [i Hi].
  destruct (lookup_lt_is_Some_2 (Device.SuiteNames dev) i) as [name Hname].
  { rewrite Hall. by eapply lookup_lt_Some. }
  exists (id, name). split; [done|].
  apply list_elem_of_bind. exists dev. split; [|done].
  apply list_elem_of_lookup. exists i. rewrite lookup_zip_with, Hi. simpl.
  by rewrite Hname.
Qed.

(** X16. In a report built from the tally of [getTLSStats] over the same
    devices, the name of every cipher entry is the standard name of its id
    taken modulo [2 ^ 16], or else the name a device supplies beside the
    first occurrence of the id: the text "Nonstandard Cipher" is never
    reached through an id without a name. *)
Theorem report_cipher_names R T now0 browsers devices stats start end_ :
  RuntimeOK R →
  Forall namesAligned devices →
  getTLSStats R browsers devices = Returns stats →
  ∃ statistics, toJSONStruct R T now0 stats start end_ = Returns statistics
    ∧ ∀ e, e ∈ TLSStatistics.Ciphers statistics →
        CipherSuiteMap T !! uint16 (Entry.ID e) = Some (Entry.Name e)
        ∨ (CipherSuiteMap T !! uint16 (Entry.ID e) = None
           ∧ (list_to_map (suitePairs devices) : gmap Z string) !! Entry.ID e
             = Some (Entry.Name e)).
Proof.
  intros HR Hall Hrun.
  assert (TLSStats.devices stats = devices
          ∧ ∀ id, is_Some (TLSStats.Ciphers stats !! id) →
                  ∃ dev, dev ∈ devices ∧ id ∈ Device.SuiteIds dev)
    as [Hdevices Hciphers].
  { unfold getTLSStats in Hrun.
    destruct (forEach _ _ _) as [acc| |] eqn:Hloop; simpl in Hrun; [|done..].
    injection Hrun as <-. simpl. split; [done|].
    by destruct (tally_fromProfiles devices _ _ acc (fromProfiles_empty devices) Hloop)
      as (_ & ? & _). }
  unfold toJSONStruct. simpl. rewrite Hdevices, (cipherMaps_suitePairs _ Hall). simpl.
  eexists. split; [reflexivity|]. simpl. intros e He.
  apply list_elem_of_fmap in He as (cc & -> & Hcc). simpl.
  unfold getCipherName.
  destruct (CipherSuiteMap T !! uint16 (k cc)) as [standard|]; [by left|]. right.
  split; [done|].
  assert (is_Some (TLSStats.Ciphers stats !! k cc)) as Hkey.
  { rewrite (sortedCounts_perm R _ HR) in Hcc. unfold entriesOf in Hcc.
    apply list_elem_of_fmap in Hcc as ([id count] & -> & Hin). simpl.
    apply elem_of_map_to_list in Hin. by eexists. }
  apply Hciphers in Hkey. apply (suitePairs_ids _ _ Hall) in Hkey.
  destruct (list_to_map (suitePairs devices) !! k cc) as [name|] eqn:Hname; [done|].
  by apply not_elem_of_list_to_map in Hname.
Qed.

Lemma report_cipher_names_witness :
  ∃ statistics,
    toJSONStruct sampleRuntime sampleTables 1700000000 scenarioA 0 0 = Returns statistics
    ∧ ∀ e, e ∈ TLSStatistics.Ciphers statistics →
        CipherSuiteMap sampleTables !! uint16 (Entry.ID e) = Some (Entry.Name e)
        ∨ (CipherSuiteMap sampleTables !! uint16 (Entry.ID e) = None
           ∧ (list_to_map (suitePairs [chrome90Profile]) : gmap Z string) !! Entry.ID e
             = Some (Entry.Name e)).
Proof.
  assert (Forall namesAligned [chrome90Profile]) as Hall by (repeat constructor).
  assert (getTLSStats sampleRuntime {[ "Chrome:90" := 100 ]} [chrome90Profile]
          = Returns scenarioA) as Hrun by (vm_compute; reflexivity).
  exact (report_cipher_names sampleRuntime sampleTables 1700000000
           {[ "Chrome:90" := 100 ]} [chrome90Profile] scenarioA 0 0
           sampleRuntime_ok Hall Hrun).
Defined.

Lemma entriesByID_snoc entries e :
  entriesByID (entries ++ [e]) = <[Entry.ID e := e]> (entriesByID entries).
Proof. unfold entriesByID. by rewrite foldl_app. Qed.

Lemma entriesByID_lookup_None entries id :
  entriesByID entries !! id = None ↔ id ∉ Entry.ID <$> entries.
Proof.
  induction entries as [|e entries IH] using rev_ind.
  { split; [intros _; apply not_elem_of_nil|done]. }
  rewrite entriesByID_snoc, fmap_app, lookup_insert_None, IH, not_elem_of_app.
  simpl. rewrite not_elem_of_cons. split.
  - intros [? ?]. repeat split; [done|congruence|apply not_elem_of_nil].
  - intros (? & ? & _). split; [done|congruence].
Qed.

Lemma entriesByID_lookup_NoDup entries e :
  NoDup (Entry.ID <$> entries) → e ∈ entries →
  entriesByID entries !! Entry.ID e = Some e.
Proof.
  induction entries as [|x entries IH] using rev_ind; intros Hnd He.
  { by apply elem_of_nil in He. }
  rewrite fmap_app in Hnd. apply NoDup_app in Hnd as (Hnd & Hdisj & _).
  rewrite entriesByID_snoc. apply elem_of_app in He as [He|He].
  - rewrite lookup_insert_ne; [by apply IH|].
    intros Heq. apply (Hdisj (Entry.ID e)).
    + by apply list_elem_of_fmap_2.
    + rewrite <- Heq. simpl. left.
  - apply list_elem_of_singleton in He as ->. by rewrite lookup_insert_eq.
Qed.

Lemma report_ids_NoDup R counts (build : intByInt64 → Entry) :
  RuntimeOK R →
  (∀ x, Entry.ID (build x) = k x) →
  NoDup (Entry.ID <$> (build <$> sortedCounts R counts))
  ∧ ∀ id, id ∈ Entry.ID <$> (build <$> sortedCounts R counts) ↔ is_Some (counts !! id).
Proof.
  intros HR Hbuild.
  assert (Entry.ID <$> (build <$> sortedCounts R counts) ≡ₚ (map_to_list counts).*1)
    as Hperm.
  { rewrite <- list_fmap_compose, (sortedCounts_perm R counts HR). unfold entriesOf.
    rewrite <- list_fmap_compose.
    assert ((Entry.ID ∘ build ∘ (λ e, KV e.1 e.2)) <$> map_to_list counts
            = (map_to_list counts).*1) as ->; [|done].
    apply list_fmap_ext. intros ? [? ?] _. simpl. by rewrite Hbuild. }
  split.
  - rewrite Hperm. apply NoDup_fst_map_to_list.
  - intros id. rewrite Hperm. rewrite list_elem_of_fmap. split.
    + intros ([id' count] & -> & Hin). apply elem_of_map_to_list in Hin. by eexists.
    + intros [count Hcount]. exists (id, count). split; [done|].
      by apply elem_of_map_to_list.
Qed.

(** X17. [ToMapped] of a report built by [toJSONStruct] loses nothing: in
    each of the three maps every entry of the report is found under its id,
    and an id is present exactly when the tally has a count for it. *)
Theorem ToMapped_finds_every_entry R T now0 stats start end_ statistics :
  RuntimeOK R →
  toJSONStruct R T now0 stats start end_ = Returns statistics →
  ((∀ e, e ∈ TLSStatistics.Protocols statistics →
      MappedTLSStatistics.Protocols (ToMapped statistics) !! Entry.ID e = Some e)
   ∧ ∀ id, is_Some (MappedTLSStatistics.Protocols (ToMapped statistics) !! id)
           ↔ is_Some (TLSStats.Protocols stats !! id))
  ∧ ((∀ e, e ∈ TLSStatistics.Ciphers statistics →
        MappedTLSStatistics.Ciphers (ToMapped statistics) !! Entry.ID e = Some e)
     ∧ ∀ id, is_Some (MappedTLSStatistics.Ciphers (ToMapped statistics) !! id)
             ↔ is_Some (TLSStats.Ciphers stats !! id))
  ∧ ((∀ e, e ∈ TLSStatistics.Curves statistics →
        MappedTLSStatistics.Curves (ToMapped statistics) !! Entry.ID e = Some e)
     ∧ ∀ id, is_Some (MappedTLSStatistics.Curves (ToMapped statistics) !! id)
             ↔ is_Some (TLSStats.Curves stats !! id)).
Proof.
  intros HR. unfold toJSONStruct. simpl.
  destruct (cipherMaps (TLSStats.devices stats)) as [names| |]; simpl; [|done..].
  intros [= <-]. unfold ToMapped. simpl.
  assert (∀ counts (build : intByInt64 → Entry),
            (∀ x, Entry.ID (build x) = k x) →
            (∀ e, e ∈ build <$> sortedCounts R counts →
               entriesByID (build <$> sortedCounts R counts) !! Entry.ID e = Some e)
            ∧ ∀ id, is_Some (entriesByID (build <$> sortedCounts R counts) !! id)
                    ↔ is_Some (counts !! id)) as Hmap.
  { intros counts build Hbuild.
    destruct (report_ids_NoDup R counts build HR Hbuild) as [Hnd Hids].
    split; [intros e He; by apply entriesByID_lookup_NoDup|].
    intros id. rewrite <- Hids, <- not_eq_None_Some, entriesByID_lookup_None.
    destruct (decide (id ∈ Entry.ID <$> (build <$> sortedCounts R counts))); tauto. }
  split; [|split]; by apply Hmap.
Qed.

Lemma ToMapped_finds_every_entry_witness :
  RuntimeOK sampleRuntime
  ∧ ∀ id, is_Some (MappedTLSStatistics.Protocols
                     (ToMapped (reportOf sampleRuntime sampleTables 1700000000 scenarioA
                                         0 0 {[ 4865 := "TLS_AES_128_GCM_SHA256" ]})) !! id)
          ↔ is_Some (TLSStats.Protocols scenarioA !! id).
Proof.
  assert (toJSONStruct sampleRuntime sampleTables 1700000000 scenarioA 0 0
          = Returns (reportOf sampleRuntime sampleTables 1700000000 scenarioA 0 0
                              {[ 4865 := "TLS_AES_128_GCM_SHA256" ]})) as Hrun
    by (vm_compute; reflexivity).
  split; [exact sampleRuntime_ok|].
  exact (proj2 (proj1 (ToMapped_finds_every_entry sampleRuntime sampleTables 1700000000
                         scenarioA 0 0 _ sampleRuntime_ok Hrun))).
Defined.

(** ** A tally of total weight zero *)









(** ** Downloads and the cache, continued *)

(** X19. Without the force flag [DownloadData] never replaces a file: when
    the usage file of today exists it returns the "already exists" error at
    once and fetches nothing, not even a missing device file; an existing
    device file is kept and the error returned; it returns no error exactly
    when neither file existed. *)
Theorem DownloadData_without_force w :
  (∀ browsers, browserStatsData w = Some browsers →
     DownloadData false w = (w, Some ErrAlreadyExists))
  ∧ (∀ devices, deviceCiphers w = Some devices →
       deviceCiphers (DownloadData false w).1 = Some devices
       ∧ (DownloadData false w).2 = Some ErrAlreadyExists)
  ∧ ((DownloadData false w).2 = None
     ↔ browserStatsData w = None ∧ deviceCiphers w = None).
Proof.
  destruct w as [now0 current archive browsers devices netB netD].
  destruct browsers as [bs|], devices as [ds|]; unfold DownloadData, download; simpl;
    (split; [|split]);
    first [ by intros ? [= <-] | by intros ? [=] | idtac ];
    split; first [ done | by intros [? ?] ].
Qed.

Lemma DownloadData_force_no_error w : (DownloadData true w).2 = None.
Proof. reflexivity. Qed.

Lemma analyseAndWriteToFile_world R T w w' statistics err :
  analyseAndWriteToFile R T w = Returns (w', (statistics, err)) →
  now w' = now w
  ∧ err ≠ Some ErrAlreadyExists
  ∧ (err = None → w' = setCurrent w (Some (Report statistics)) (backups w)).
Proof.
  unfold analyseAndWriteToFile.
  destruct (loadAndAnalyse R T w) as [[[stats start] end_]| |]; simpl; [|done..].
  destruct (toJSONStruct R T (now w) stats start end_) as [st| |]; simpl; [|done..].
  destruct (marshalable st); intros [= <- <- <-]; by repeat split.
Qed.

Lemma renameCurrentStats_world R w :
  now (renameCurrentStats R w) = now w
  ∧ ∀ old, jsonStatsOut w = Some (Report old) →
      backups (renameCurrentStats R w) !! backupName R (TLSStatistics.GenerationDate old)
      = Some (Report old).
Proof.
  unfold renameCurrentStats. destruct (jsonStatsOut w) as [[|partial|stats]|]; simpl;
    (split; [done|]); try done.
  intros old [= <-]. by rewrite lookup_insert_eq.
Qed.

(** X20. With the force flag [GetStats] always runs the pipeline: the
    download reports no error even when the requests fail, a cached report
    that parses is first moved to the backup named after its generation
    date, and whatever is returned is generated at [now]. *)
Theorem forced_refresh_recomputes R T w :
  GetStats R T true w
  = analyseAndWriteToFile R T (renameCurrentStats R (DownloadData true w).1)
  ∧ ∀ w' fresh err,
      GetStats R T true w = Returns (w', (fresh, err)) →
      TLSStatistics.GenerationDate fresh = midnightUTC R (now w)
      ∧ err ≠ Some ErrAlreadyExists
      ∧ ∀ old, jsonStatsOut w = Some (Report old) →
          backups w' !! backupName R (TLSStatistics.GenerationDate old)
          = Some (Report old).
Proof.
  assert (GetStats R T true w
          = analyseAndWriteToFile R T (renameCurrentStats R (DownloadData true w).1))
    as Hget.
  { unfold GetStats. destruct (DownloadData true w) as [w1 e] eqn:Hd.
    pose proof (DownloadData_force_no_error w) as He. rewrite Hd in He.
    simpl in He. by subst e. }
  split; [exact Hget|]. intros w' fresh err Hrun. rewrite Hget in Hrun.
  pose proof (analyseAndWriteToFile_result _ _ _ _ _ _ Hrun) as (Hgen & Hbackups & _).
  pose proof (analyseAndWriteToFile_world _ _ _ _ _ _ Hrun) as (_ & Herr & _).
  destruct (renameCurrentStats_world R (DownloadData true w).1) as [Hnow Hold].
  destruct (DownloadData_keeps_reports true w) as (Hn & Hj & _).
  split; [by rewrite Hgen, Hnow, Hn|]. split; [exact Herr|].
  intros old Hcached. rewrite Hbackups. apply Hold. by rewrite Hj.
Qed.

(** X21. A report that [GetStats] returns without an error is served again:
    a following call without the force flag, at the same [now], returns the
    same report and changes no file.  The calendar is taken to say that the
    start of today is not more than six months old. *)
Theorem GetStats_result_is_served_again R T force w w' statistics :
  Before (midnightUTC R (now w)) (sixMonthsBefore R (now w)) = false →
  GetStats R T force w = Returns (w', (statistics, None)) →
  GetStats R T false w' = Returns (w', (statistics, None)).
Proof.
  intros Hcalendar Hrun.
  assert (∀ w0, now w0 = now w →
            analyseAndWriteToFile R T w0 = Returns (w', (statistics, None)) →
            GetStats R T false w' = Returns (w', (statistics, None))) as Hcomputed.
  { intros w0 Hnow Hpipeline.
    pose proof (analyseAndWriteToFile_result _ _ _ _ _ _ Hpipeline) as (Hgen & _ & _).
    pose proof (analyseAndWriteToFile_world _ _ _ _ _ _ Hpipeline) as (Hnow' & _ & Hw').
    specialize (Hw' eq_refl).
    assert (jsonStatsOut w' = Some (Report statistics)) as Hcur by (by rewrite Hw').
    unfold GetStats. rewrite Hcur, Hgen, Hnow', Hnow. by rewrite Hcalendar. }
  unfold GetStats in Hrun. destruct force.
  - destruct (DownloadData true w) as [w1 e] eqn:Hd.
    pose proof (DownloadData_keeps_reports true w) as (Hn & _ & _). rewrite Hd in Hn.
    destruct e; [done|]. apply (Hcomputed (renameCurrentStats R w1)); [|done].
    destruct (renameCurrentStats_world R w1) as [-> _]. exact Hn.
  - destruct (jsonStatsOut w) as [[|partial|cached]|] eqn:Hcached.
    + injection Hrun as <- <-. unfold GetStats. by rewrite Hcached.
    + injection Hrun as <- <-. unfold GetStats. by rewrite Hcached.
    + destruct (Before (TLSStatistics.GenerationDate cached) _) eqn:Hstale.
      * apply (Hcomputed (DownloadData false (renameCurrentStats R w)).1); [|done].
        destruct (DownloadData_keeps_reports false (renameCurrentStats R w)) as (-> & _).
        by destruct (renameCurrentStats_world R w) as [-> _].
      * injection Hrun as <- <-. unfold GetStats. by rewrite Hcached, Hstale.
    + apply (Hcomputed (DownloadData false w).1); [|done].
      by destruct (DownloadData_keeps_reports false w) as (-> & _).
Qed.

Lemma GetStats_result_is_served_again_witness :
  ∃ w' statistics,
    GetStats sampleRuntime sampleTables false (sampleWorld None)
    = Returns (w', (statistics, None))
    ∧ GetStats sampleRuntime sampleTables false w' = Returns (w', (statistics, None)).
Proof.
  assert (Before (midnightUTC sampleRuntime (now (sampleWorld None)))
                 (sixMonthsBefore sampleRuntime (now (sampleWorld None))) = false)
    as Hcalendar by reflexivity.
  destruct (GetStats sampleRuntime sampleTables false (sampleWorld None))
    as [[w' [statistics [err|]]]| |] eqn:Hrun; try (vm_compute in Hrun; discriminate).
  exists w', statistics. split; [reflexivity|].
  exact (GetStats_result_is_served_again sampleRuntime sampleTables false
           (sampleWorld None) w' statistics Hcalendar Hrun).
Defined.

(** ** The loader of the usage file *)

Lemma loadLine_cases C yearAgo browsers line :
  (length (splitOn "009"%char line) = 5%nat ∧ loadLine C yearAgo browsers line = Panics)
  ∨ (length (splitOn "009"%char line) ≠ 5%nat
     ∧ (loadLine C yearAgo browsers line = Returns browsers
        ∨ ∃ b, loadLine C yearAgo browsers line = Returns (browsers ++ [b])
            ∧ isInt64 (Browser.Count b)
            ∧ After (Browser.Date b) yearAgo = true
            ∧ ParseInt (default "" (splitOn "009"%char line !! 5%nat)) = Some (Browser.Count b))).
Proof.
  unfold loadLine.
  destruct (splitOn "009"%char line) as [|d0 [|d1 [|d2 [|d3 [|d4 [|d5 rest]]]]]]; simpl;
    try (right; split; [done|by left]).
  { by left. }
  right. split; [done|].
  destruct (ParseInt d5) as [percent|] eqn:Hpercent; [|by left].
  destruct (parseDate C d0) as [date|]; [|by left].
  destruct (After date yearAgo) eqn:Hafter; [|by left].
  right. eexists. split; [reflexivity|]. simpl. split; [|done].
  clear -Hpercent. unfold ParseInt in Hpercent.
  assert (∀ s n z, 0 ≤ n → parseDigits s n = Some z → 0 ≤ z) as Hdigits.
  { induction s as [|c s IH]; intros n z Hn; simpl; [by intros [= <-]|].
    unfold digitOf. destruct (_ && _) eqn:Hc; [|done].
    apply andb_true_iff in Hc as [Hlo _]. apply Z.leb_le in Hlo.
    apply IH. lia. }
  destruct d5 as [|c d5]; [done|]. cbv zeta in Hpercent.
  match type of Hpercent with context [if ?b then d5 else String c d5] =>
    destruct (if b then d5 else String c d5) as [|c' digits]
  end; [done|].
  destruct (parseDigits (String c' digits) 0) as [un|] eqn:Hun; [|done].
  apply Hdigits in Hun; [|done]. unfold isInt64, min_int64, max_int64.
  destruct (Ascii.eqb c "-"%char).
  - destruct (Z.leb_spec un (2 ^ 63)); [|done]. injection Hpercent as <-. lia.
  - destruct (Z.ltb_spec un (2 ^ 63)); [|done]. injection Hpercent as <-. lia.
Qed.

Lemma loadLines_outcome C yearAgo lines browsers :
  (Exists (λ line, length (splitOn "009"%char line) = 5%nat) lines
   ∧ forEach (loadLine C yearAgo) lines browsers = Panics)
  ∨ (¬ Exists (λ line, length (splitOn "009"%char line) = 5%nat) lines
     ∧ ∃ loaded, forEach (loadLine C yearAgo) lines browsers = Returns (browsers ++ loaded)
         ∧ Forall (λ b, isInt64 (Browser.Count b)
                        ∧ After (Browser.Date b) yearAgo = true) loaded).
Proof.
  revert browsers. induction lines as [|line lines IH]; intros browsers.
  { right. split; [by intros ?%Exists_nil|]. exists []. by rewrite app_nil_r. }
  rewrite forEach_cons.
  destruct (loadLine_cases C yearAgo browsers line) as [[Hfive ->]|[Hnot Hline]].
  { left. split; [by left|done]. }
  assert (∀ added, Forall (λ b, isInt64 (Browser.Count b)
                                ∧ After (Browser.Date b) yearAgo = true) added →
    loadLine C yearAgo browsers line = Returns (browsers ++ added) →
    (Exists (λ line, length (splitOn "009"%char line) = 5%nat) (line :: lines)
     ∧ (loadLine C yearAgo browsers line ≫= forEach (loadLine C yearAgo) lines) = Panics)
    ∨ (¬ Exists (λ line, length (splitOn "009"%char line) = 5%nat) (line :: lines)
       ∧ ∃ loaded,
           (loadLine C yearAgo browsers line ≫= forEach (loadLine C yearAgo) lines)
           = Returns (browsers ++ loaded)
           ∧ Forall (λ b, isInt64 (Browser.Count b)
                          ∧ After (Browser.Date b) yearAgo = true) loaded)) as Hnext.
  { intros added Hadded ->. rewrite outcome_bind_Returns.
    destruct (IH (browsers ++ added)) as [[Hex ->]|(Hnone & loaded & -> & Hloaded)].
    - left. split; [by right|done].
    - right. split; [by intros [?|?]%Exists_cons|].
      exists (added ++ loaded). split; [by rewrite (assoc_L (++))|].
      by apply Forall_app. }
  destruct Hline as [Hsame|(b & Hb & Hcount & Hdate & _)].
  - apply (Hnext []); [done|by rewrite app_nil_r].
  - apply (Hnext [b]); [|done]. by apply Forall_singleton.
Qed.

(** X23. [loadBrowserOSStats] panics exactly when the file holds a line of
    five tab-separated fields: the guard lets such a line through
    ([len(data) > 4]) and the sixth field [data[5]] is then out of range.
    On every other file it returns. *)
Theorem loadBrowserOSStats_panics_on_five_fields C now0 lines :
  (loadBrowserOSStats C now0 (Some lines) = Panics
   ↔ Exists (λ line, length (splitOn "009"%char line) = 5%nat) lines)
  ∧ (¬ Exists (λ line, length (splitOn "009"%char line) = 5%nat) lines →
     ∃ browsers, loadBrowserOSStats C now0 (Some lines) = Returns browsers).
Proof.
  unfold loadBrowserOSStats.
  destruct (loadLines_outcome C (aYearAgoAndABit C now0) lines [])
    as [[Hex ->]|(Hnone & loaded & -> & _)]; simpl.
  - split; [done|]. intros Hnone. by destruct Hnone.
  - assert (∃ browsers,
      (if 0 <? Z.of_nat (length loaded) - 1
       then match last loaded with
            | Some lastRecord =>
                Returns (filter (λ b, After (Browser.Date b)
                                   (oneYearBefore C (Browser.Date lastRecord)) = true)
                                loaded)
            | None => Returns loaded
            end
       else Returns loaded) = Returns browsers) as [browsers ->].
    { destruct (0 <? _); [|by eexists]. destruct (last loaded); by eexists. }
    split; [|by eexists]. split; [done|]. intros Hex. by destruct Hnone.
Qed.


Lemma loadBrowserOSStats_inv C now0 file browsers :
  loadBrowserOSStats C now0 file = Returns browsers →
  ∃ loaded,
    Forall (λ b, isInt64 (Browser.Count b)
                 ∧ After (Browser.Date b) (aYearAgoAndABit C now0) = true) loaded
    ∧ ((length loaded ≤ 1)%nat ∧ browsers = loaded
       ∨ ∃ lastRecord, last loaded = Some lastRecord
           ∧ browsers = filter (λ b, After (Browser.Date b)
                                  (oneYearBefore C (Browser.Date lastRecord)) = true)
                               loaded).
Proof.
  unfold loadBrowserOSStats. destruct file as [lines|].
  - destruct (loadLines_outcome C (aYearAgoAndABit C now0) lines [])
      as [[Hex ->]|(Hnone & loaded & -> & Hloaded)]; simpl; [done|].
    intros Hrun. exists loaded. split; [done|].
    destruct (Z.ltb_spec 0 (Z.of_nat (length loaded) - 1)) as [Hlen|Hlen].
    + destruct (last loaded) as [lastRecord|] eqn:Hlast.
      * right. exists lastRecord. split; [done|]. by injection Hrun as <-.
      * apply last_None in Hlast as ->. simpl in Hlen. lia.
    + left. split; [lia|]. by injection Hrun as <-.
  - simpl. intros [= <-]. exists []. split; [done|]. left. split; [simpl; lia|done].
Qed.

(** X24. Every usage record [loadBrowserOSStats] returns has a count that
    an [int64] holds and a date after the start of the window computed from
    the clock ("a year ago and a bit"). *)
Theorem loaded_records_are_in_range C now0 file browsers :
  loadBrowserOSStats C now0 file = Returns browsers →
  Forall (λ b, isInt64 (Browser.Count b)
               ∧ After (Browser.Date b) (aYearAgoAndABit C now0) = true) browsers.
Proof.
  intros Hrun. apply loadBrowserOSStats_inv in Hrun
    as (loaded & Hloaded & [[_ ->]|(lastRecord & _ & ->)]); [done|].
  apply Forall_forall. intros b Hb. apply list_elem_of_filter in Hb as [_ Hb].
  rewrite Forall_forall in Hloaded. by apply Hloaded.
Qed.


Lemma loaded_records_are_in_range_witness :
  loadBrowserOSStats sampleCalendar 1700000000 (Some sampleUsageFile)
  = Returns [Browser.Build (19650 * 86400) "Safari" "14" "Mac OS X" "11" 30;
             Browser.Build (19700 * 86400) "Firefox" "73" "Linux" "5" 45]
  ∧ Forall (λ b, isInt64 (Browser.Count b)
                 ∧ After (Browser.Date b) (aYearAgoAndABit sampleCalendar 1700000000) = true)
           [Browser.Build (19650 * 86400) "Safari" "14" "Mac OS X" "11" 30;
             Browser.Build (19700 * 86400) "Firefox" "73" "Linux" "5" 45].
Proof.
  assert (loadBrowserOSStats sampleCalendar 1700000000 (Some sampleUsageFile)
          = Returns [Browser.Build (19650 * 86400) "Safari" "14" "Mac OS X" "11" 30;
             Browser.Build (19700 * 86400) "Firefox" "73" "Linux" "5" 45]) as Hrun
    by (vm_compute; reflexivity).
  split; [exact Hrun|].
  exact (loaded_records_are_in_range sampleCalendar 1700000000 (Some sampleUsageFile)
           _ Hrun).
Defined.


(** ** The pipeline on the data files *)

Lemma loadBrowserOSStats_outcome C now0 file :
  (Exists (λ line, length (splitOn "009"%char line) = 5%nat) (default [] file)
   ∧ loadBrowserOSStats C now0 file = Panics)
  ∨ (¬ Exists (λ line, length (splitOn "009"%char line) = 5%nat) (default [] file)
     ∧ ∃ browsers, loadBrowserOSStats C now0 file = Returns browsers).
Proof.
  unfold loadBrowserOSStats. destruct file as [lines|]; simpl.
  - destruct (loadLines_outcome C (aYearAgoAndABit C now0) lines [])
      as [[Hex ->]|(Hnone & loaded & -> & _)]; simpl; [by left|].
    right. split; [done|].
    destruct (0 <? _); [|by eexists]. destruct (last loaded); by eexists.
  - right. split; [by intros ?%Exists_nil|by eexists].
Qed.

Lemma loadAndAnalyse_returns R T w :
  ¬ Exists (λ line, length (splitOn "009"%char line) = 5%nat)
      (default [] (browserStatsData w)) →
  Forall boundedProtocols (loadDeviceDetails (deviceCiphers w)) →
  ∃ browsers stats start end_,
    loadBrowserOSStats (calendar R) (now w) (browserStatsData w) = Returns browsers
    ∧ analyseStats R T browsers (loadDeviceDetails (deviceCiphers w))
      = Returns (stats, start, end_)
    ∧ TLSStats.devices stats = loadDeviceDetails (deviceCiphers w)
    ∧ loadAndAnalyse R T w = Returns (stats, start, end_).
Proof.
  intros Hlines Hbounded. unfold loadAndAnalyse.
  destruct (loadBrowserOSStats_outcome (calendar R) (now w) (browserStatsData w))
    as [[Hex _]|(_ & browsers & Hload)]; [done|].
  rewrite Hload, outcome_bind_Returns.
  assert (∃ stats start end_,
            analyseStats R T browsers (loadDeviceDetails (deviceCiphers w))
            = Returns (stats, start, end_)
            ∧ TLSStats.devices stats = loadDeviceDetails (deviceCiphers w))
    as (stats & start & end_ & Hstats & Hdevices).
  { unfold analyseStats.
    destruct (getTLSStats_returns R
                (browserMap (joinBrowsers T browsers (loadDeviceDetails (deviceCiphers w))))
                _ Hbounded) as (stats & -> & Hdevices).
    rewrite outcome_bind_Returns. destruct (getDateRange browsers) as [start end_].
    by exists stats, start, end_. }
  by exists browsers, stats, start, end_.
Qed.

Lemma analyseAndWriteToFile_computes R T w :
  ¬ Exists (λ line, length (splitOn "009"%char line) = 5%nat)
      (default [] (browserStatsData w)) →
  Forall boundedProtocols (loadDeviceDetails (deviceCiphers w)) →
  Forall namesAligned (loadDeviceDetails (deviceCiphers w)) →
  ∃ browsers stats start end_ names,
    loadBrowserOSStats (calendar R) (now w) (browserStatsData w) = Returns browsers
    ∧ analyseStats R T browsers (loadDeviceDetails (deviceCiphers w))
      = Returns (stats, start, end_)
    ∧ cipherMaps (loadDeviceDetails (deviceCiphers w)) = Returns names
    ∧ let fresh := reportOf R T (now w) stats start end_ names in
      analyseAndWriteToFile R T w
      = Returns (if marshalable fresh
                 then (setCurrent w (Some (Report fresh)) (backups w), (fresh, None))
                 else (w, (fresh, Some ErrUnsupportedValue))).
Proof.
  intros Hlines Hbounded Haligned.
  destruct (loadAndAnalyse_returns R T w Hlines Hbounded)
    as (browsers & stats & start & end_ & Hload & Hstats & Hdevices & Hrun).
  rewrite <- Hdevices in Haligned.
  destruct (toJSONStruct_returns R T (now w) stats start end_ Haligned)
    as (names & Hnames & Hreport).
  exists browsers, stats, start, end_, names.
  split; [exact Hload|]. split; [exact Hstats|].
  split; [by rewrite <- Hdevices|].
  cbv zeta. unfold analyseAndWriteToFile.
  rewrite Hrun, outcome_bind_Returns, Hreport, outcome_bind_Returns.
  by destruct (marshalable _).
Qed.

(** X2. [analyseAndWriteToFile] panics when the usage file holds a line of
    five tab-separated fields.  When it holds none, and every profile of the
    device file has a highest protocol below the largest [int] and as many
    suite names as suite ids, it returns the report of the tally of the
    loaded records: written as the current report when every percent is
    finite, and returned beside the error of [json.MarshalIndent], with no
    file changed, otherwise. *)
Theorem analyseAndWriteToFile_returns R T w :
  (Exists (λ line, length (splitOn "009"%char line) = 5%nat)
     (default [] (browserStatsData w)) →
   analyseAndWriteToFile R T w = Panics)
  ∧ (¬ Exists (λ line, length (splitOn "009"%char line) = 5%nat)
         (default [] (browserStatsData w)) →
     Forall boundedProtocols (loadDeviceDetails (deviceCiphers w)) →
     Forall namesAligned (loadDeviceDetails (deviceCiphers w)) →
     ∃ browsers stats start end_ names,
       loadBrowserOSStats (calendar R) (now w) (browserStatsData w) = Returns browsers
       ∧ analyseStats R T browsers (loadDeviceDetails (deviceCiphers w))
         = Returns (stats, start, end_)
       ∧ cipherMaps (loadDeviceDetails (deviceCiphers w)) = Returns names
       ∧ let fresh := reportOf R T (now w) stats start end_ names in
         analyseAndWriteToFile R T w
         = Returns (if marshalable fresh
                    then (setCurrent w (Some (Report fresh)) (backups w), (fresh, None))
                    else (w, (fresh, Some ErrUnsupportedValue)))).
Proof.
  split; [|apply analyseAndWriteToFile_computes].
  intros Hex. unfold analyseAndWriteToFile, loadAndAnalyse.
  by destruct (loadBrowserOSStats_outcome (calendar R) (now w) (browserStatsData w))
    as [[_ ->]|[Hnone _]].
Qed.

Lemma analyseAndWriteToFile_returns_witness :
  analyseAndWriteToFile sampleRuntime sampleTables
    {| now := 1700000000; jsonStatsOut := None; backups := ∅;
       browserStatsData :=
         Some [chrome90Line; tabSeparated ["19601"; "Windows"; "10"; "Chrome"; "90"]];
       deviceCiphers := Some [chrome90Profile];
       netBrowserStats := None; netDeviceDetails := None |}
  = Panics
  ∧ analyseAndWriteToFile sampleRuntime sampleTables (sampleWorld None)
    = Returns (setCurrent (sampleWorld None) (Some (Report scenarioAReport)) ∅,
               (scenarioAReport, None)).
Proof.
  split.
  - apply (proj1 (analyseAndWriteToFile_returns sampleRuntime sampleTables _)).
    right. left. reflexivity.
  - assert (¬ Exists (λ line, length (splitOn "009"%char line) = 5%nat)
                (default [] (browserStatsData (sampleWorld None)))) as Hlines.
    { intros Hex. apply Exists_cons in Hex as [Hfive|Hex]; [discriminate Hfive|].
      by apply Exists_nil in Hex. }
    assert (Forall boundedProtocols (loadDeviceDetails (deviceCiphers (sampleWorld None))))
      as Hbounded.
    { apply Forall_singleton. unfold boundedProtocols. simpl. discriminate. }
    assert (Forall namesAligned (loadDeviceDetails (deviceCiphers (sampleWorld None))))
      as Haligned.
    { by apply Forall_singleton. }
    destruct (proj2 (analyseAndWriteToFile_returns sampleRuntime sampleTables
                       (sampleWorld None)) Hlines Hbounded Haligned)
      as (browsers & stats & start & end_ & names & Hload & Hstats & Hnames & Hrun).
    vm_compute in Hload. injection Hload as <-.
    vm_compute in Hstats. injection Hstats as <- <- <-.
    vm_compute in Hnames. injection Hnames as <-.
    rewrite Hrun. vm_compute. reflexivity.
Defined.



(** X22. [PrintStats] passes its flag to the download only; the report
    file is handled by [GetStats(false)].  So a cached report younger than
    six months stays in place and no backup is made, whatever the flag.
    With such a report in place [PrintStats] returns whenever its own run of
    the loaders and the tally does, also when [String] panics on a profile
    with a suite id and no name beside it: [fmt] prints a note of the panic
    and [GetStats(false)] is still called. *)
Theorem PrintStats_keeps_fresh_report R T force w cached :
  jsonStatsOut w = Some (Report cached) →
  Before (TLSStatistics.GenerationDate cached) (sixMonthsBefore R (now w)) = false →
  let data := (DownloadData force w).1 in
  (∀ w' printed,
     PrintStats R T force w = Returns (w', printed) →
     jsonStatsOut w' = Some (Report cached) ∧ backups w' = backups w)
  ∧ (¬ Exists (λ line, length (splitOn "009"%char line) = 5%nat)
         (default [] (browserStatsData data)) →
     Forall boundedProtocols (loadDeviceDetails (deviceCiphers data)) →
     ∃ browsers stats start end_,
       loadBrowserOSStats (calendar R) (now w) (browserStatsData data) = Returns browsers
       ∧ analyseStats R T browsers (loadDeviceDetails (deviceCiphers data))
         = Returns (stats, start, end_)
       ∧ PrintStats R T force w = Returns (data, printOperand R T (now w) stats)
       ∧ (cipherMaps (loadDeviceDetails (deviceCiphers data)) = Panics →
          printOperand R T (now w) stats = PanicNote)).
Proof.
  intros Hcached Hfresh data.
  destruct (DownloadData_keeps_reports force w) as (Hn & Hj & Hb).
  fold data in Hn, Hj, Hb.
  assert (GetStats R T false data = Returns (data, (cached, None))) as Hget.
  { unfold GetStats. by rewrite Hj, Hcached, Hn, Hfresh. }
  assert (PrintStats R T force w
          = loadAndAnalyse R T data ≫= λ '(stats, _, _),
              GetStats R T false data ≫= λ r,
                Returns (r.1, printOperand R T (now data) stats)) as Hprint
    by reflexivity.
  rewrite Hprint, Hget. clear Hprint. split.
  - intros w' printed.
    destruct (loadAndAnalyse R T data) as [[[stats start] end_]| |]; [|done..].
    rewrite !outcome_bind_Returns. simpl. intros [= <- _]. by rewrite Hj, Hb.
  - intros Hlines Hbounded.
    destruct (loadAndAnalyse_returns R T data Hlines Hbounded)
      as (browsers & stats & start & end_ & Hload & Hstats & Hdevices & Hrun).
    rewrite Hn in Hload.
    exists browsers, stats, start, end_.
    split; [exact Hload|]. split; [exact Hstats|]. split.
    + rewrite Hrun, !outcome_bind_Returns. simpl. by rewrite Hn.
    + intros Hpanic. unfold printOperand, toJSONStruct. simpl.
      by rewrite Hdevices, Hpanic.
Qed.

Lemma PrintStats_keeps_fresh_report_witness :
  PrintStats sampleRuntime sampleTables true namelessWorld
  = Returns (namelessWorld, PanicNote)
  ∧ PrintStats sampleRuntime sampleTables false
      (sampleWorld (Some (Report (sampleReport 1699000000))))
    = Returns (sampleWorld (Some (Report (sampleReport 1699000000))),
               Rendered {| TLSStatistics.GenerationDate := 1699920000;
                           TLSStatistics.StartDate := 1700000000;
                           TLSStatistics.EndDate := 1700000000;
                           TLSStatistics.Protocols := TLSStatistics.Protocols scenarioAReport;
                           TLSStatistics.Ciphers := TLSStatistics.Ciphers scenarioAReport;
                           TLSStatistics.Curves := TLSStatistics.Curves scenarioAReport |}).
Proof.
  assert (¬ Exists (λ line, length (splitOn "009"%char line) = 5%nat) [chrome90Line])
    as Hlines.
  { intros Hex. apply Exists_cons in Hex as [Hfive|Hex]; [discriminate Hfive|].
    by apply Exists_nil in Hex. }
  split.
  - assert (Forall boundedProtocols [namelessProfile]) as Hbounded.
    { apply Forall_singleton. unfold boundedProtocols. simpl. discriminate. }
    destruct (proj2 (PrintStats_keeps_fresh_report sampleRuntime sampleTables true
                       namelessWorld (sampleReport 1699000000) eq_refl eq_refl)
                Hlines Hbounded)
      as (browsers & stats & start & end_ & Hload & Hstats & Hrun & Hnote).
    rewrite Hrun, (Hnote eq_refl). reflexivity.
  - assert (Forall boundedProtocols [chrome90Profile]) as Hbounded.
    { apply Forall_singleton. unfold boundedProtocols. simpl. discriminate. }
    destruct (proj2 (PrintStats_keeps_fresh_report sampleRuntime sampleTables false
                       (sampleWorld (Some (Report (sampleReport 1699000000))))
                       (sampleReport 1699000000) eq_refl eq_refl)
                Hlines Hbounded)
      as (browsers & stats & start & end_ & Hload & Hstats & Hrun & _).
    vm_compute in Hload. injection Hload as <-.
    vm_compute in Hstats. injection Hstats as <- <- <-.
    rewrite Hrun. vm_compute. reflexivity.
Defined.
